(** * Configuration-state controller of the anax node agent

    A shallow embedding of [api/path_configstate.go]: the state validator
    ([NoOpStateChange], [ValidStateChange]), the read path
    ([FindConfigstateForOutput]), the service-name derivation
    ([makeServiceName]) and the transition workflow ([UpdateConfigstate]) with
    its pattern-resolution and auto-configuration loops.

    Go strings are byte strings, modelled as [string]; the pattern map
    returned by the exchange is a [gmap string _]; the collaborators the
    workflow calls (device store, exchange handlers, service creation, the
    error handler) are gathered in a record and thread an abstract world. *)

From Stdlib Require Import Ascii String.
From stdpp Require Import base option list strings gmap pretty.

Local Open Scope string_scope.

(** ** Go's [strings] functions used by the file *)

Module GoStrings.

(** [strings.Index] followed by the two slices around the match, for a
    one-byte separator: the text before the first [sep] and the text
    after it, or [None] when [sep] does not occur. *)
Fixpoint Cut (s : string) (sep : ascii) : option (string * string) :=
  match s with
  | EmptyString => None
  | String c r =>
      if Ascii.eqb c sep then Some (EmptyString, r)
      else match Cut r sep with
           | Some (a, b) => Some (String c a, b)
           | None => None
           end
  end.

(** The loop of [genSplit]: at most [k] further cuts, the remainder is
    the last piece. *)
Fixpoint splitUpTo (s : string) (sep : ascii) (k : nat) : list string :=
  match k with
  | O => [s]
  | S k' =>
      match Cut s sep with
      | None => [s]
      | Some (a, b) => a :: splitUpTo b sep k'
      end
  end.

(** [strings.SplitN(s, sep, n)] for a one-byte [sep] and [n >= 0]:
    [n = 0] gives no piece, otherwise at most [n] pieces. *)
Definition SplitN (s : string) (sep : ascii) (n : nat) : list string :=
  match n with
  | O => []
  | S k => splitUpTo s sep k
  end.

(** [strings.TrimSuffix(s, suffix)] for a one-byte suffix: one trailing
    [c] is removed when there is one. *)
Fixpoint TrimSuffix (s : string) (c : ascii) : string :=
  match s with
  | EmptyString => EmptyString
  | String a EmptyString => if Ascii.eqb a c then EmptyString else s
  | String a r => String a (TrimSuffix r c)
  end.

(** [strings.Replace(s, old, new, -1)] for one-byte [old] and [new]. *)
Fixpoint Replace (s : string) (old new : ascii) : string :=
  match s with
  | EmptyString => EmptyString
  | String a r => String (if Ascii.eqb a old then new else a) (Replace r old new)
  end.

(** Number of occurrences of a byte ([strings.Count]). *)
Fixpoint Count (s : string) (c : ascii) : nat :=
  match s with
  | EmptyString => 0
  | String a r => (if Ascii.eqb a c then 1 else 0) + Count r c
  end.

End GoStrings.

(** ** Constants and the state validator *)

Definition CONFIGSTATE_CONFIGURING : string := "configuring".
Definition CONFIGSTATE_CONFIGURED : string := "configured".

Definition NoOpStateChange (from to : string) : bool :=
  if String.eqb from to then true else false.

Definition ValidStateChange (from to : string) : bool :=
  if String.eqb from CONFIGSTATE_CONFIGURING && String.eqb to CONFIGSTATE_CONFIGURED
  then true else false.

(** ** Service names *)

Definition slash : ascii := "/"%char.
Definition hyphen : ascii := "-"%char.

(** [fmt.Sprintf("%v_%v_%v", url, msOrg, msVersion)] on three strings. *)
Definition Sprintf_v_v_v (a b c : string) : string :=
  a ++ "_" ++ b ++ "_" ++ c.

Definition makeServiceName (msURL msOrg msVersion : string) : string :=
  let url := "" in
  let pieces := GoStrings.SplitN msURL slash 3 in
  let url :=
    if bool_decide (3 <= length pieces) then
      let url := GoStrings.TrimSuffix (pieces !!! 2%nat) slash in
      GoStrings.Replace url slash hyphen
    else url in
  Sprintf_v_v_v url msOrg msVersion.

(** ** Data model *)

(** Go [error] values by dynamic type. The API error types carry the
    fields the file reads or fills; any other dynamic type is kept with
    its type name. A nil [error] is [None] of [option error]. *)
Inductive error : Type :=
  | SystemError (Err : string)
  | NotFoundError (Err : string)
  | APIUserInputError (Err Input : string)
  | MSMissingVariableConfigError (Err : string)
  | DuplicateServiceError (Err : string)
  | errorString (s : string)
  | ForeignError (type_name text : string).

(** The API view [Configstate]: [State] is a [*string]. *)
Record Configstate : Type := { State : option string }.

(** [persistence.Configstate] and the fields of
    [persistence.ExchangeDevice] the workflow reads. *)
Record PersistentConfigstate : Type := { PState : string }.

Record ExchangeDevice : Type := {
  Id : string;
  Org : string;
  Pattern : string;
  Token : string;
  Config : PersistentConfigstate
}.

(** The API view [HorizonDevice], of which only [Config] is read here. *)
Record HorizonDevice : Type := { HConfig : option Configstate }.

Record WorkloadChoice : Type := { Version : string }.

Record WorkloadReference : Type := {
  WorkloadURL : string;
  WorkloadOrg : string;
  WorkloadArch : string;
  WorkloadVersions : list WorkloadChoice
}.

Record PatternDefinition : Type := { Workloads : list WorkloadReference }.

(** [policy.APISpecification] and [policy.APISpecList]. *)
Record APISpecification : Type := {
  SpecRef : string;
  SpecOrg : string;
  SpecVersion : string;
  ExclusiveAccess : bool
}.

Definition APISpecList : Type := list APISpecification.

(** Modelled from the spec: [ConvertFromPersistentHorizonDevice] is not in
    this file; the view of a device record carries the record's current
    configuration state ("Configuration State ... attached to the Device
    Record", "return the updated configuration-state view"). *)
Definition ConvertFromPersistentHorizonDevice (pDevice : ExchangeDevice) : HorizonDevice :=
  {| HConfig := Some {| State := Some (PState (Config pDevice)) |} |}.

(** ** Formatting *)

(** The dynamic type as [%T] prints it. *)
Definition fmt_T (e : option error) : string :=
  match e with
  | None => "<nil>"
  | Some (SystemError _) => "*api.SystemError"
  | Some (NotFoundError _) => "*api.NotFoundError"
  | Some (APIUserInputError _ _) => "*api.APIUserInputError"
  | Some (MSMissingVariableConfigError _) => "*api.MSMissingVariableConfigError"
  | Some (DuplicateServiceError _) => "*api.DuplicateServiceError"
  | Some (errorString _) => "*errors.errorString"
  | Some (ForeignError t _) => t
  end.

(** Outcome of running a piece of Go code: it completes with a value or
    panics at run time. *)
Inductive PanicKind : Type :=
  | NilPointerDereference
  | InterfaceConversion (held wanted : string).

Inductive Res (A : Type) : Type :=
  | Done (a : A)
  | Panic (p : PanicKind).
Arguments Done {A} a.
Arguments Panic {A} p.

(** Control after a loop or a block with early [return]s. *)
Inductive ctl (A R : Type) : Type :=
  | Continue (a : A)
  | Return (r : R).
Arguments Continue {A R} a.
Arguments Return {A R} r.

(** ** Collaborators, world and call trace *)

Section Workflow.

(** [W] is the state of everything outside this file that the workflow
    reads or changes (the bolt database, the exchange, the HTTP response
    being written); [Service] and [Msg] stand for [*Service] and
    [*events.PolicyCreatedMessage]. *)
Context {W Service Msg : Type}.

(** The calls that leave this file, with their arguments. Logging is not
    recorded. *)
Inductive Call : Type :=
  | CallFindExchangeDevice
  | CallErrorHandler (e : error)
  | CallGetPatterns (org pattern id token : string)
  | CallResolveWorkload (wURL wOrg wVersion wArch id token : string)
  | CallCreateService (service : Service)
  | CallSetConfigstate (id state : string).

(** What [UpdateConfigstate] is given and what it calls. The first four
    fields are the handlers passed as arguments; the others are functions
    and methods of the repository defined outside this file.

    [CreateService] stands for the call of line 147 with the pass-through
    handler bound to [createServiceError], [getMicroservice], [db] and
    [config]: it takes the service and the current content of
    [createServiceError] and yields [(errHandled, newService, msg)] and
    the content of [createServiceError] after the call.

    [ReplaceHigherSharedSingleton] has pointer receiver and argument and
    returns nothing: it yields the two lists as they are after the call. *)
Record Env : Type := {
  errorhandler : error -> W -> bool * W;
  getPatterns : string -> string -> string -> string -> W ->
                (gmap string PatternDefinition * option error) * W;
  resolveWorkload : string -> string -> string -> string -> string -> string -> W ->
                    (APISpecList * option error) * W;
  CreateService : Service -> option error -> W ->
                  ((bool * option Service * Msg) * option error) * W;
  FindExchangeDevice : W -> option ExchangeDevice * option error;
  SetConfigstate : ExchangeDevice -> string -> string -> W ->
                   (ExchangeDevice * option error) * W;
  GetId : ExchangeDevice -> string;
  NewService : string -> string -> string -> string -> Service;
  ArchString : string;
  ReplaceHigherSharedSingleton : APISpecList -> APISpecList -> APISpecList * APISpecList;
  MergeWith : APISpecList -> APISpecList -> APISpecList;
  Error : error -> string;
  fmt_patterns : gmap string PatternDefinition -> string
}.

Record St : Type := MkSt { world : W; calls : list Call }.

(** Computations of the workflow: they read and change the world, extend
    the trace, and complete or panic. *)
Definition M (A : Type) : Type := St -> Res A * St.

Definition ret {A} (a : A) : M A := fun s => (Done a, s).

Definition bind {A B} (m : M A) (k : A -> M B) : M B :=
  fun s =>
    match m s with
    | (Done a, s') => k a s'
    | (Panic p, s') => (Panic p, s')
    end.

Definition panic {A} (p : PanicKind) : M A := fun s => (Panic p, s).

(** A call that may change the world. *)
Definition call {A} (c : Call) (f : W -> A * W) : M A :=
  fun s =>
    let '(a, w) := f (world s) in
    (Done a, {| world := w; calls := (calls s ++ [c])%list |}).

(** A call that only reads the world. *)
Definition query {A} (c : Call) (f : W -> A) : M A :=
  call c (fun w => (f w, w)).

End Workflow.

Arguments Call : clear implicits.
Arguments Env : clear implicits.
Arguments St : clear implicits.

Declare Scope go_scope.
Delimit Scope go_scope with go.
Notation "'let*' x ':=' m 'in' k" := (bind m (fun x => k))
  (at level 10, x name, m at level 100, k at level 200, only parsing) : go_scope.
Notation "'let*' ' pat ':=' m 'in' k" :=
  (bind m (fun x => match x with pat => k end))
  (at level 10, pat pattern, m at level 100, k at level 200, only parsing) : go_scope.

Local Open Scope go_scope.

(** [%v] of an [error] value. *)
Definition fmt_v {W Service Msg} (E : Env W Service Msg) (e : option error) : string :=
  match e with
  | None => "<nil>"
  | Some e => Error E e
  end.

(** ** [FindConfigstateForOutput] *)

Definition FindConfigstateForOutput {W Service Msg} (E : Env W Service Msg)
    (db : W) : option Configstate * option error :=
  let '(pDevice, err) := FindExchangeDevice E db in
  match err with
  | Some e =>
      (None, Some (errorString ("unable to read horizondevice object, error " ++ Error E e)))
  | None =>
      match pDevice with
      | None =>
          let state := CONFIGSTATE_CONFIGURING in
          let cfg := {| State := Some state |} in
          (Some cfg, None)
      | Some pDevice =>
          let device := ConvertFromPersistentHorizonDevice pDevice in
          (HConfig device, None)
      end
  end.

(** ** [UpdateConfigstate] *)

Section UpdateConfigstate.

Context {W Service Msg : Type}.
Variable E : Env W Service Msg.

Local Abbreviation Ret := (bool * option Configstate * list Msg)%type.
Local Abbreviation M := (@M W Service).

(** [return errorhandler(e), nil, nil] *)
Definition fault (e : error) : M Ret :=
  let* handled := call (CallErrorHandler e) (errorhandler E e) in
  ret (handled, None, []).

(** Dereference of a pointer. *)
Definition deref {A} (p : option A) : M A :=
  match p with
  | Some a => ret a
  | None => panic NilPointerDereference
  end.

(** The one-result type assertion of [e] to a pointer to
    [MSMissingVariableConfigError]: it yields the value held (here its
    [Err] field) or panics. *)
Definition assert_MSMissingVariableConfigError (e : option error) : M string :=
  match e with
  | Some (MSMissingVariableConfigError msErr_Err) => ret msErr_Err
  | _ => panic (InterfaceConversion (fmt_T e) "*api.MSMissingVariableConfigError")
  end.

(** Lines 122-134: the version choices of one workload. *)
Fixpoint resolveChoices (pDevice : ExchangeDevice) (thisArch : string)
    (workload : WorkloadReference) (choices : list WorkloadChoice)
    (completeAPISpecList : APISpecList) : M (ctl APISpecList Ret) :=
  match choices with
  | [] => ret (Continue completeAPISpecList)
  | workloadChoice :: choices' =>
      let* '(apiSpecList, err) :=
        call (CallResolveWorkload (WorkloadURL workload) (WorkloadOrg workload)
                (Version workloadChoice) thisArch (GetId E pDevice) (Token pDevice))
             (resolveWorkload E (WorkloadURL workload) (WorkloadOrg workload)
                (Version workloadChoice) thisArch (GetId E pDevice) (Token pDevice)) in
      match err with
      | Some e =>
          let* r := fault (SystemError
            ("Error resolving workload " ++ WorkloadURL workload ++ " "
             ++ WorkloadOrg workload ++ " " ++ Version workloadChoice ++ " "
             ++ thisArch ++ ", error " ++ Error E e)) in
          ret (Return r)
      | None =>
          let '(completeAPISpecList, apiSpecList) :=
            ReplaceHigherSharedSingleton E completeAPISpecList apiSpecList in
          let completeAPISpecList := MergeWith E completeAPISpecList apiSpecList in
          resolveChoices pDevice thisArch workload choices' completeAPISpecList
      end
  end.

(** Lines 113-136: the workloads of the pattern. *)
Fixpoint resolveWorkloads (pDevice : ExchangeDevice) (thisArch : string)
    (workloads : list WorkloadReference)
    (completeAPISpecList : APISpecList) : M (ctl APISpecList Ret) :=
  match workloads with
  | [] => ret (Continue completeAPISpecList)
  | workload :: workloads' =>
      if negb (String.eqb (WorkloadArch workload) thisArch) then
        resolveWorkloads pDevice thisArch workloads' completeAPISpecList
      else
        let* r := resolveChoices pDevice thisArch workload
                    (WorkloadVersions workload) completeAPISpecList in
        match r with
        | Return x => ret (Return x)
        | Continue completeAPISpecList =>
            resolveWorkloads pDevice thisArch workloads' completeAPISpecList
        end
  end.

(** Lines 144-166: one service per resolved API spec. [err] is the
    variable of that name in scope at line 151, the one assigned by
    [getPatterns] at line 94. *)
Fixpoint createServices (err : option error) (specs : APISpecList)
    (createServiceError : option error) (msgs : list Msg)
    : M (ctl (list Msg) Ret) :=
  match specs with
  | [] => ret (Continue msgs)
  | apiSpec :: specs' =>
      let service :=
        NewService E (SpecRef apiSpec) (SpecOrg apiSpec)
          (makeServiceName (SpecRef apiSpec) (SpecOrg apiSpec) (SpecVersion apiSpec))
          (SpecVersion apiSpec) in
      let* '((errHandled, newService, msg), createServiceError) :=
        call (CallCreateService service) (CreateService E service createServiceError) in
      if errHandled : bool then
        match createServiceError with
        | Some (MSMissingVariableConfigError _) =>
            let* msErr_Err := assert_MSMissingVariableConfigError err in
            let* r := fault (APIUserInputError
              ("Configstate autoconfig, microservice " ++ SpecRef apiSpec ++ " "
               ++ SpecOrg apiSpec ++ " " ++ SpecVersion apiSpec ++ ", " ++ msErr_Err)
              "configstate.state") in
            ret (Return r)
        | Some (DuplicateServiceError _) =>
            createServices err specs' createServiceError msgs
        | _ =>
            let* r := fault (SystemError
              ("unexpected error returned from service create ("
               ++ fmt_T createServiceError ++ ") " ++ fmt_v E createServiceError)) in
            ret (Return r)
        end
      else
        let msgs := (msgs ++ [msg])%list in
        createServices err specs' createServiceError msgs
  end.

(** Lines 89-170: the body of [if pDevice.Pattern != ""]. *)
Definition autoconfig (pDevice : ExchangeDevice) (msgs : list Msg)
    : M (ctl (list Msg) Ret) :=
  let* '(pattern, err) :=
    call (CallGetPatterns (Org pDevice) (Pattern pDevice) (GetId E pDevice) (Token pDevice))
         (getPatterns E (Org pDevice) (Pattern pDevice) (GetId E pDevice) (Token pDevice)) in
  match err with
  | Some e =>
      let* r := fault (SystemError
        ("Unable to read pattern object " ++ Pattern pDevice
         ++ " from exchange, error " ++ Error E e)) in
      ret (Return r)
  | None =>
      if negb (Nat.eqb (size pattern) 1) then
        let* r := fault (SystemError
          ("Expected only 1 pattern from exchange, received " ++ pretty (size pattern))) in
        ret (Return r)
      else
        let patId := Org pDevice ++ "/" ++ Pattern pDevice in
        match pattern !! patId with
        | None =>
            let* r := fault (SystemError
              ("Expected pattern id not found in GET pattern response: "
               ++ fmt_patterns E pattern)) in
            ret (Return r)
        | Some patternDef =>
            let completeAPISpecList : APISpecList := [] in
            let thisArch := ArchString E in
            let* r := resolveWorkloads pDevice thisArch (Workloads patternDef)
                        completeAPISpecList in
            match r with
            | Return x => ret (Return x)
            | Continue completeAPISpecList =>
                let createServiceError : option error := None in
                createServices err completeAPISpecList createServiceError msgs
            end
        end
  end.

(** Lines 173-181: persist the new state and return the updated view. *)
Definition persistState (pDevice : ExchangeDevice) (cfg_State : string)
    (msgs : list Msg) : M Ret :=
  let* '(updatedDev, err) :=
    call (CallSetConfigstate (Id pDevice) cfg_State)
         (SetConfigstate E pDevice (Id pDevice) cfg_State) in
  match err with
  | Some e =>
      fault (SystemError ("error persisting new config state: " ++ Error E e))
  | None =>
      let exDev := ConvertFromPersistentHorizonDevice updatedDev in
      ret (false, HConfig exDev, msgs)
  end.

Definition UpdateConfigstate (cfg : Configstate) : M Ret :=
  let* '(pDevice, err) := query CallFindExchangeDevice (FindExchangeDevice E) in
  match err with
  | Some e =>
      fault (SystemError ("Unable to read horizondevice object, error " ++ Error E e))
  | None =>
      match pDevice with
      | None =>
          fault (NotFoundError "Exchange registration not recorded. Complete account and device registration with an exchange and then record device registration using this API's /horizondevice path.")
      | Some pDevice =>
          let msgs : list Msg := [] in
          let* cfg_State := deref (State cfg) in
          if negb (String.eqb cfg_State CONFIGSTATE_CONFIGURING)
             && negb (String.eqb cfg_State CONFIGSTATE_CONFIGURED) then
            fault (APIUserInputError
              ("Supported state values are '" ++ CONFIGSTATE_CONFIGURING
               ++ "' and '" ++ CONFIGSTATE_CONFIGURED ++ "'.")
              "configstate.state")
          else if NoOpStateChange (PState (Config pDevice)) cfg_State then
            let exDev := ConvertFromPersistentHorizonDevice pDevice in
            ret (false, HConfig exDev, [])
          else if negb (ValidStateChange (PState (Config pDevice)) cfg_State) then
            fault (APIUserInputError
              ("Transition from '" ++ PState (Config pDevice) ++ "' to '"
               ++ cfg_State ++ "' is not supported.")
              "configstate.state")
          else
            let* r :=
              if negb (String.eqb (Pattern pDevice) "") then autoconfig pDevice msgs
              else ret (Continue msgs) in
            match r with
            | Return x => ret x
            | Continue msgs => persistState pDevice cfg_State msgs
            end
      end
  end.

End UpdateConfigstate.

(** ** The accumulation and the outcomes as the specification words them *)

(** "First apply singleton-replacement against the running total using
    the newly resolved sub-list, then merge-without-duplicates the
    sub-list into the running total." *)
Definition accumulate {W Service Msg} (E : Env W Service Msg)
    (total sub : APISpecList) : APISpecList :=
  let '(total, sub) := ReplaceHigherSharedSingleton E total sub in
  MergeWith E total sub.

(** The version choices of the architecture-matching workloads, in
    declaration order. *)
Definition matchingChoices (thisArch : string) (workloads : list WorkloadReference)
    : list (WorkloadReference * WorkloadChoice) :=
  flat_map (fun w => map (fun c => (w, c)) (WorkloadVersions w))
    (filter (fun w => WorkloadArch w = thisArch) workloads).

(** The resolver as a single fold over those choices. *)
Fixpoint spec_resolve {W Service Msg} (E : Env W Service Msg)
    (pDevice : ExchangeDevice) (thisArch : string)
    (choices : list (WorkloadReference * WorkloadChoice)) (total : APISpecList)
    : M (ctl APISpecList (bool * option Configstate * list Msg)) :=
  match choices with
  | [] => ret (Continue total)
  | (w, c) :: choices' =>
      let* '(sub, err) :=
        call (CallResolveWorkload (WorkloadURL w) (WorkloadOrg w) (Version c)
                thisArch (GetId E pDevice) (Token pDevice))
             (resolveWorkload E (WorkloadURL w) (WorkloadOrg w) (Version c)
                thisArch (GetId E pDevice) (Token pDevice)) in
      match err with
      | Some e =>
          let* r := fault E (SystemError
            ("Error resolving workload " ++ WorkloadURL w ++ " " ++ WorkloadOrg w
             ++ " " ++ Version c ++ " " ++ thisArch ++ ", error " ++ Error E e)) in
          ret (Return r)
      | None => spec_resolve E pDevice thisArch choices' (accumulate E total sub)
      end
  end.

(** What follows a block that may have returned. *)
Definition andThen {W Service A R} (k : A -> @M W Service (ctl A R))
    (r : ctl A R) : @M W Service (ctl A R) :=
  match r with
  | Return x => ret (Return x)
  | Continue a => k a
  end.

(** The four outcomes of provisioning one dependency. *)
Inductive Outcome (Msg : Type) : Type :=
  | Created (msg : Msg)
  | AlreadyPresent
  | NeedsManualConfig (detail : string)
  | Fatal.
Arguments Created {Msg} msg.
Arguments AlreadyPresent {Msg}.
Arguments NeedsManualConfig {Msg} detail.
Arguments Fatal {Msg}.

Definition classify {Service Msg}
    (r : (bool * option Service * Msg) * option error) : Outcome Msg :=
  match r with
  | ((false, _, msg), _) => Created msg
  | ((true, _, _), Some (DuplicateServiceError _)) => AlreadyPresent
  | ((true, _, _), Some (MSMissingVariableConfigError d)) => NeedsManualConfig d
  | ((true, _, _), _) => Fatal
  end.

(** The service the auto-provisioner asks for, for one dependency. *)
Definition serviceFor {W Service Msg} (E : Env W Service Msg)
    (apiSpec : APISpecification) : Service :=
  NewService E (SpecRef apiSpec) (SpecOrg apiSpec)
    (makeServiceName (SpecRef apiSpec) (SpecOrg apiSpec) (SpecVersion apiSpec))
    (SpecVersion apiSpec).

(** The service-creation calls of a pass over [specs]. *)
Definition createCalls {W Service Msg} (E : Env W Service Msg)
    (specs : APISpecList) : list (Call Service) :=
  map (fun apiSpec => CallCreateService (serviceFor E apiSpec)) specs.

(** A provisioning pass over [specs] in which every dependency is created
    or already present: from the content [cse] of [createServiceError]
    and the world [w] it ends with [cse'] and [w'], having produced the
    notifications [created], one per created dependency, in order. *)
Inductive Recoverable {W Service Msg} (E : Env W Service Msg)
    : APISpecList -> option error -> W -> list Msg -> option error -> W -> Prop :=
  | Recoverable_nil cse w :
      Recoverable E [] cse w [] cse w
  | Recoverable_created apiSpec specs cse w r msg cse1 w1 created cse' w' :
      CreateService E (serviceFor E apiSpec) cse w = ((r, cse1), w1) ->
      classify (r, cse1) = Created msg ->
      Recoverable E specs cse1 w1 created cse' w' ->
      Recoverable E (apiSpec :: specs) cse w (msg :: created) cse' w'
  | Recoverable_present apiSpec specs cse w r cse1 w1 created cse' w' :
      CreateService E (serviceFor E apiSpec) cse w = ((r, cse1), w1) ->
      classify (r, cse1) = AlreadyPresent ->
      Recoverable E specs cse1 w1 created cse' w' ->
      Recoverable E (apiSpec :: specs) cse w created cse' w'.

(** The text after the last slash of a reference, the "last path segment"
    of the specification. *)
Fixpoint spec_lastPathSegment (url : string) : string :=
  match url with
  | EmptyString => EmptyString
  | String c r =>
      if bool_decide (GoStrings.Count r slash = 0) then
        (if Ascii.eqb c slash then r else url)
      else spec_lastPathSegment r
  end.

(** ** A concrete node, used to run the workflow *)

Module Scenario.

(** The world: the device record of the store, the names of the services
    already configured, and the faults handed to the error handler. *)
Record World : Type := {
  device : option ExchangeDevice;
  configured : list string;
  response : list error
}.

Definition ServiceRec : Type := (string * string * string * string)%type.

Definition serviceName (s : ServiceRec) : string := s.1.2.

Definition withState (d : ExchangeDevice) (state : string) : ExchangeDevice :=
  {| Id := Id d; Org := Org d; Pattern := Pattern d; Token := Token d;
     Config := {| PState := state |} |}.

Definition sameSpec (a b : APISpecification) : bool :=
  String.eqb (SpecRef a) (SpecRef b) && String.eqb (SpecOrg a) (SpecOrg b)
  && String.eqb (SpecVersion a) (SpecVersion b).

Definition mergeWithoutDuplicates (base incoming : APISpecList) : APISpecList :=
  (base ++ List.filter (fun e => negb (existsb (sameSpec e) base)) incoming)%list.

Definition spec (ref version : string) : APISpecification :=
  {| SpecRef := ref; SpecOrg := "IBM"; SpecVersion := version; ExclusiveAccess := false |}.

Definition X : APISpecification := spec "https://bluehorizon.network/microservices/network" "1.0.0".
Definition Y : APISpecification := spec "https://bluehorizon.network/microservices/gps" "2.0.3".
Definition Z : APISpecification := spec "https://bluehorizon.network/microservices/sdr" "0.4.1".

(** The exchange: one workload resolves to [X] and [Y], another to [Y]
    and [Z]. *)
Definition resolve (wURL : string) : APISpecList * option error :=
  if String.eqb wURL "https://bluehorizon.network/workloads/netspeed" then ([X; Y], None)
  else if String.eqb wURL "https://bluehorizon.network/workloads/location" then ([Y; Z], None)
  else ([], Some (errorString "workload not found")).

(** Service creation: a configured name is a duplicate, [Z] has a
    variable without default, anything else is created. *)
Definition create (s : ServiceRec) (cse : option error) (w : World)
    : ((bool * option ServiceRec * string) * option error) * World :=
  if existsb (String.eqb (serviceName s)) (configured w) then
    (((true, None, ""), Some (DuplicateServiceError "duplicate")), w)
  else if String.eqb s.1.1.1 (SpecRef Z) then
    (((true, None, ""), Some (MSMissingVariableConfigError "variable freq is missing")), w)
  else
    (((false, Some s, "policy for " ++ serviceName s), cse),
     {| device := device w; configured := (configured w ++ [serviceName s])%list;
        response := response w |}).

Definition env (patterns : gmap string PatternDefinition) : Env World ServiceRec string := {|
  errorhandler := fun e w =>
    (true, {| device := device w; configured := configured w;
              response := (response w ++ [e])%list |});
  getPatterns := fun _ _ _ _ w => ((patterns, None), w);
  resolveWorkload := fun wURL _ _ _ _ _ w => (resolve wURL, w);
  CreateService := create;
  FindExchangeDevice := fun w => (device w, None);
  SetConfigstate := fun d _ state w =>
    ((withState d state, None),
     {| device := Some (withState d state); configured := configured w;
        response := response w |});
  GetId := fun d => Org d ++ "/" ++ Id d;
  NewService := fun url org name version => (url, org, name, version);
  ArchString := "amd64";
  ReplaceHigherSharedSingleton := fun total sub => (total, sub);
  MergeWith := mergeWithoutDuplicates;
  Error := fun e =>
    match e with
    | SystemError s | NotFoundError s | APIUserInputError s _
    | MSMissingVariableConfigError s | DuplicateServiceError s
    | errorString s | ForeignError _ s => s
    end;
  fmt_patterns := fun _ => "map[...]"
|}.

Definition workload (url arch : string) (versions : list string) : WorkloadReference :=
  {| WorkloadURL := url; WorkloadOrg := "IBM"; WorkloadArch := arch;
     WorkloadVersions := map (fun v => {| Version := v |}) versions |}.

Definition netspeed : WorkloadReference :=
  workload "https://bluehorizon.network/workloads/netspeed" "amd64" ["2.5.0"].
Definition netspeed_arm : WorkloadReference :=
  workload "https://bluehorizon.network/workloads/netspeed" "arm" ["2.5.0"; "2.4.0"].
Definition location : WorkloadReference :=
  workload "https://bluehorizon.network/workloads/location" "amd64" ["1.2.0"].

Definition node (pattern state : string) : ExchangeDevice :=
  {| Id := "node1"; Org := "IBM"; Pattern := pattern; Token := "secret";
     Config := {| PState := state |} |}.

Definition start (d : option ExchangeDevice) (names : list string) : St World ServiceRec :=
  {| world := {| device := d; configured := names; response := [] |}; calls := [] |}.

Definition request (state : string) : Configstate := {| State := Some state |}.

(** Pattern [IBM/netspeed] has the matching and a non-matching workload;
    pattern [IBM/location] resolves to a dependency that needs manual
    configuration. *)
Definition netspeedPattern : gmap string PatternDefinition :=
  {[ "IBM/netspeed" := {| Workloads := [netspeed_arm; netspeed] |} ]}.
Definition locationPattern : gmap string PatternDefinition :=
  {[ "IBM/location" := {| Workloads := [location] |} ]}.

Definition E_netspeed : Env World ServiceRec string := env netspeedPattern.
Definition E_location : Env World ServiceRec string := env locationPattern.
Definition E_nopattern : Env World ServiceRec string := env ∅.

(** A registered node with the given pattern and state, and the given
    services already configured. *)
Definition registered (pattern state : string) (names : list string)
    : St World ServiceRec :=
  start (Some (node pattern state)) names.

End Scenario.

(** ** Shapes of call traces *)

Definition isGetPatterns {Service} (c : Call Service) : Prop :=
  match c with CallGetPatterns _ _ _ _ => True | _ => False end.

Definition isResolveWorkload {Service} (c : Call Service) : Prop :=
  match c with CallResolveWorkload _ _ _ _ _ _ => True | _ => False end.

Definition isCreateService {Service} (c : Call Service) : Prop :=
  match c with CallCreateService _ => True | _ => False end.

Definition isSetConfigstate {Service} (c : Call Service) : Prop :=
  match c with CallSetConfigstate _ _ => True | _ => False end.

Definition isErrorHandler {Service} (c : Call Service) : Prop :=
  match c with CallErrorHandler _ => True | _ => False end.

(** No call, or one call of the given kind. *)
Definition atMostOne {Service} (P : Call Service -> Prop) (l : list (Call Service)) : Prop :=
  l = [] \/ exists c, l = [c] /\ P c.

(** The calls of one request, by phase: the device read, then at most one
    pattern fetch, then workload resolutions, then service creations,
    then at most one state update, then at most one fault report. *)
Definition phased {Service} (trace : list (Call Service)) : Prop :=
  exists fetch resolutions creations update report,
    trace = (CallFindExchangeDevice :: fetch ++ resolutions ++ creations
             ++ update ++ report)%list
    /\ atMostOne isGetPatterns fetch
    /\ Forall isResolveWorkload resolutions
    /\ Forall isCreateService creations
    /\ atMostOne isSetConfigstate update
    /\ atMostOne isErrorHandler report.

(** How a block of the workflow ends, given the calls [report] it made
    after its own: a block that goes on or panics has reported nothing; a
    block that returns has reported one fault and returns no view and no
    notification. *)
Definition ended {Service Msg A}
    (r : Res (ctl A (bool * option Configstate * list Msg)))
    (report : list (Call Service)) : Prop :=
  match r with
  | Done (Continue _) | Panic _ => report = []
  | Done (Return (_, view, msgs)) =>
      view = None /\ msgs = [] /\ exists e, report = [CallErrorHandler e]
  end.

(** What a request may call before, at, and after the state update, and how
    that relates to its result. *)
Definition shaped {W Service Msg} (E : Env W Service Msg)
    (cfg : Configstate) (st : St W Service)
    (r : Res (bool * option Configstate * list Msg)) (trace : list (Call Service)) : Prop :=
  exists fetch resolutions creations update report,
    trace = CallFindExchangeDevice :: fetch ++ resolutions ++ creations
            ++ update ++ report
    /\ atMostOne isGetPatterns fetch
    /\ Forall isResolveWorkload resolutions
    /\ Forall isCreateService creations
    /\ (update = []
        \/ exists pDevice,
             FindExchangeDevice E (world st) = (Some pDevice, None)
             /\ PState (Config pDevice) = CONFIGSTATE_CONFIGURING
             /\ State cfg = Some CONFIGSTATE_CONFIGURED
             /\ update = [CallSetConfigstate (Id pDevice) CONFIGSTATE_CONFIGURED])
    /\ atMostOne isErrorHandler report
    /\ match r with
       | Done (handled, view, msgs) =>
           (report = [] /\ handled = false /\ view <> None)
           \/ (view = None /\ msgs = [] /\ report <> [])
       | Panic _ => update = [] /\ report = []
       end.

(** ** A node whose collaborators fail *)

Module Failures.

(** Which collaborator fails, and how. [createFails] makes the creation
    of the service for [Scenario.Y] fail with an error of another type. *)
Record Knobs : Type := {
  storeReadError : option error;
  patternFetchError : option error;
  persistError : option error;
  createFails : bool
}.

Definition none : Knobs :=
  {| storeReadError := None; patternFetchError := None; persistError := None;
     createFails := false |}.

Definition env (k : Knobs) (patterns : gmap string PatternDefinition)
    : Env Scenario.World Scenario.ServiceRec string :=
  let E := Scenario.env patterns in {|
  errorhandler := errorhandler E;
  getPatterns := fun org pattern id token w =>
    match patternFetchError k with
    | Some e => ((∅, Some e), w)
    | None => getPatterns E org pattern id token w
    end;
  resolveWorkload := resolveWorkload E;
  CreateService := fun s cse w =>
    if createFails k && String.eqb s.1.1.1 (SpecRef Scenario.Y) then
      (((true, None, ""), Some (errorString "disk full")), w)
    else CreateService E s cse w;
  FindExchangeDevice := fun w =>
    match storeReadError k with
    | Some e => (None, Some e)
    | None => FindExchangeDevice E w
    end;
  SetConfigstate := fun d id state w =>
    match persistError k with
    | Some e => ((d, Some e), w)
    | None => SetConfigstate E d id state w
    end;
  GetId := GetId E;
  NewService := NewService E;
  ArchString := ArchString E;
  ReplaceHigherSharedSingleton := ReplaceHigherSharedSingleton E;
  MergeWith := MergeWith E;
  Error := Error E;
  fmt_patterns := fmt_patterns E
|}.

Definition storeDown : Knobs :=
  {| storeReadError := Some (errorString "database not open"); patternFetchError := None;
     persistError := None; createFails := false |}.
Definition exchangeDown : Knobs :=
  {| storeReadError := None; patternFetchError := Some (errorString "connection refused");
     persistError := None; createFails := false |}.
Definition storeReadOnly : Knobs :=
  {| storeReadError := None; patternFetchError := None;
     persistError := Some (errorString "database is read-only"); createFails := false |}.
Definition diskFull : Knobs :=
  {| storeReadError := None; patternFetchError := None; persistError := None;
     createFails := true |}.

(** A pattern whose second workload is unknown to the exchange, a pattern
    without workload for this architecture, and a pattern with a workload
    without version. *)
Definition unknownWorkload : WorkloadReference :=
  Scenario.workload "https://bluehorizon.network/workloads/unknown" "amd64" ["1.0.0"].
Definition brokenPattern : gmap string PatternDefinition :=
  {[ "IBM/broken" := {| Workloads := [Scenario.netspeed; unknownWorkload] |} ]}.
Definition armPattern : gmap string PatternDefinition :=
  {[ "IBM/arm" := {| Workloads := [Scenario.netspeed_arm] |} ]}.
Definition noVersion : WorkloadReference :=
  Scenario.workload "https://bluehorizon.network/workloads/location" "amd64" [].

End Failures.

(** * Properties *)

Local Open Scope list_scope.

(** ** Running the monad *)

Section Running.

Context {W Service Msg : Type}.
Variable E : Env W Service Msg.

Lemma bind_call {A B} (c : Call Service) (f : W -> A * W)
    (k : A -> M B) (st : St W Service) :
  bind (call c f) k st
  = k (f (world st)).1 {| world := (f (world st)).2; calls := calls st ++ [c] |}.
Proof. unfold bind, call. destruct (f (world st)) as [a w]. reflexivity. Qed.

Lemma bind_ret {A B} (a : A) (k : A -> @M W Service B) (st : St W Service) :
  bind (ret a) k st = k a st.
Proof. reflexivity. Qed.

Lemma bind_done {A B} (m : @M W Service A) (k : A -> M B) (st st' : St W Service)
    (a : A) :
  m st = (Done a, st') -> bind m k st = k a st'.
Proof. intros H. unfold bind. rewrite H. reflexivity. Qed.

Lemma bind_panic {A B} (m : @M W Service A) (k : A -> M B) (st st' : St W Service)
    (p : PanicKind) :
  m st = (Panic p, st') -> bind m k st = (Panic p, st').
Proof. intros H. unfold bind. rewrite H. reflexivity. Qed.

Lemma fault_run (e : error) (st : St W Service) :
  fault (Msg := Msg) E e st
  = (Done ((errorhandler E e (world st)).1, None, []),
     {| world := (errorhandler E e (world st)).2;
        calls := calls st ++ [CallErrorHandler e] |}).
Proof. unfold fault. rewrite bind_call. reflexivity. Qed.

Lemma bind_fault_return {A} (e : error) (st : St W Service) :
  bind (fault (Msg := Msg) E e) (fun r => ret (Return (A := A) r)) st
  = (Done (Return ((errorhandler E e (world st)).1, None, [])),
     {| world := (errorhandler E e (world st)).2;
        calls := calls st ++ [CallErrorHandler e] |}).
Proof. unfold bind. rewrite fault_run. reflexivity. Qed.

End Running.

(** ** State validator *)

Lemma NoOpStateChange_true (from to : string) :
  NoOpStateChange from to = true <-> from = to.
Proof.
  unfold NoOpStateChange. destruct (String.eqb_spec from to); split; congruence.
Qed.

Lemma ValidStateChange_true (from to : string) :
  ValidStateChange from to = true
  <-> from = CONFIGSTATE_CONFIGURING /\ to = CONFIGSTATE_CONFIGURED.
Proof.
  unfold ValidStateChange.
  destruct (String.eqb_spec from CONFIGSTATE_CONFIGURING),
           (String.eqb_spec to CONFIGSTATE_CONFIGURED); simpl;
    split; (congruence || tauto || (intros [? ?]; congruence)).
Qed.

Lemma in_domain_check (s : string) :
  s = CONFIGSTATE_CONFIGURING \/ s = CONFIGSTATE_CONFIGURED ->
  negb (String.eqb s CONFIGSTATE_CONFIGURING)
  && negb (String.eqb s CONFIGSTATE_CONFIGURED) = false.
Proof. intros [-> | ->]; reflexivity. Qed.

(** ** [FindConfigstateForOutput] *)

(** C9: when the store read succeeds and finds no device record,
    [FindConfigstateForOutput] returns a standalone view whose state is
    ["configuring"], and no error. *)
Theorem FindConfigstateForOutput_unregistered {W Service Msg}
    (E : Env W Service Msg) (db : W) :
  FindExchangeDevice E db = (None, None) ->
  FindConfigstateForOutput E db
  = (Some {| State := Some CONFIGSTATE_CONFIGURING |}, None).
Proof. intros Hfind. unfold FindConfigstateForOutput. rewrite Hfind. reflexivity. Qed.

Lemma FindConfigstateForOutput_unregistered_witness :
  FindExchangeDevice Scenario.E_nopattern (world (Scenario.start None [])) = (None, None)
  /\ FindConfigstateForOutput Scenario.E_nopattern (world (Scenario.start None []))
     = (Some {| State := Some "configuring" |}, None).
Proof.
  split; [reflexivity |].
  apply (FindConfigstateForOutput_unregistered Scenario.E_nopattern). reflexivity.
Defined.

(** ** Transitions *)

Section Transitions.

Context {W Service Msg : Type}.
Variable E : Env W Service Msg.

(** The path up to the transition checks, for a registered device and a
    request that carries a state. *)
Lemma UpdateConfigstate_registered (cfg : Configstate) (st : St W Service)
    (pDevice : ExchangeDevice) (to : string) :
  FindExchangeDevice E (world st) = (Some pDevice, None) ->
  State cfg = Some to ->
  UpdateConfigstate E cfg st
  = (let st1 := {| world := world st; calls := calls st ++ [CallFindExchangeDevice] |} in
     if negb (String.eqb to CONFIGSTATE_CONFIGURING)
        && negb (String.eqb to CONFIGSTATE_CONFIGURED) then
       fault E (APIUserInputError
         ("Supported state values are '" ++ CONFIGSTATE_CONFIGURING
          ++ "' and '" ++ CONFIGSTATE_CONFIGURED ++ "'.")%string
         "configstate.state") st1
     else if NoOpStateChange (PState (Config pDevice)) to then
       (Done (false, HConfig (ConvertFromPersistentHorizonDevice pDevice), []), st1)
     else if negb (ValidStateChange (PState (Config pDevice)) to) then
       fault E (APIUserInputError
         ("Transition from '" ++ PState (Config pDevice) ++ "' to '"
          ++ to ++ "' is not supported.")%string
         "configstate.state") st1
     else
       bind (if negb (String.eqb (Pattern pDevice) "") then autoconfig E pDevice []
             else ret (Continue []))
         (fun r =>
            match r with
            | Return x => ret x
            | Continue msgs => persistState E pDevice to msgs
            end) st1).
Proof.
  intros Hfind Hto. unfold UpdateConfigstate, query.
  rewrite bind_call. simpl. rewrite Hfind, Hto. simpl.
  unfold deref. rewrite bind_ret.
  repeat match goal with |- context [if ?b then _ else _] => destruct b end;
    try reflexivity.
Qed.

End Transitions.

Section TransitionClaims.

Context {W Service Msg : Type}.
Variable E : Env W Service Msg.

(** C4: [NoOpStateChange s s] is true for every [s]; and when the
    requested state equals the current state of the registered device
    (one of the two states), [UpdateConfigstate] returns the current
    state, unhandled, with no notification, and has made no call besides
    the read of the device record: the world is unchanged. *)
Theorem UpdateConfigstate_noop (cfg : Configstate) (st : St W Service)
    (pDevice : ExchangeDevice) (s : string) :
  NoOpStateChange s s = true
  /\ (FindExchangeDevice E (world st) = (Some pDevice, None) ->
      State cfg = Some s ->
      PState (Config pDevice) = s ->
      s = CONFIGSTATE_CONFIGURING \/ s = CONFIGSTATE_CONFIGURED ->
      UpdateConfigstate (Msg := Msg) E cfg st
      = (Done (false, Some {| State := Some s |}, []),
         {| world := world st; calls := calls st ++ [CallFindExchangeDevice] |})).
Proof.
  split.
  - apply NoOpStateChange_true. reflexivity.
  - intros Hfind Hcfg Hcur Hdom.
    rewrite (UpdateConfigstate_registered E cfg st pDevice s Hfind Hcfg).
    cbv zeta. rewrite (in_domain_check s Hdom), Hcur.
    replace (NoOpStateChange s s) with true
      by (symmetry; apply NoOpStateChange_true; reflexivity).
    unfold ConvertFromPersistentHorizonDevice. simpl. rewrite Hcur. reflexivity.
Qed.

(** C3, as amended: [ValidStateChange from to] is true exactly when
    [from] is ["configuring"] and [to] is ["configured"]; and a request
    whose target is one of the two states, differs from the current state
    of the registered device and is not a valid change is answered with
    an invalid-input fault naming both states, nothing else being
    called. *)
Theorem UpdateConfigstate_unsupported_transition (cfg : Configstate)
    (st : St W Service) (pDevice : ExchangeDevice) (to : string) :
  (forall from to', ValidStateChange from to' = true
     <-> from = CONFIGSTATE_CONFIGURING /\ to' = CONFIGSTATE_CONFIGURED)
  /\ (FindExchangeDevice E (world st) = (Some pDevice, None) ->
      State cfg = Some to ->
      to = CONFIGSTATE_CONFIGURING \/ to = CONFIGSTATE_CONFIGURED ->
      PState (Config pDevice) <> to ->
      ValidStateChange (PState (Config pDevice)) to = false ->
      let e := APIUserInputError
                 ("Transition from '" ++ PState (Config pDevice) ++ "' to '"
                  ++ to ++ "' is not supported.")%string "configstate.state" in
      UpdateConfigstate (Msg := Msg) E cfg st
      = (Done ((errorhandler E e (world st)).1, None, []),
         {| world := (errorhandler E e (world st)).2;
            calls := calls st ++ [CallFindExchangeDevice; CallErrorHandler e] |})).
Proof.
  split.
  - apply ValidStateChange_true.
  - intros Hfind Hcfg Hdom Hne Hinvalid e.
    rewrite (UpdateConfigstate_registered E cfg st pDevice to Hfind Hcfg).
    cbv zeta. rewrite (in_domain_check to Hdom).
    destruct (NoOpStateChange (PState (Config pDevice)) to) eqn:Hnoop.
    { apply NoOpStateChange_true in Hnoop. contradiction. }
    rewrite Hinvalid. simpl negb. cbv iota.
    rewrite fault_run. simpl. rewrite <- app_assoc. reflexivity.
Qed.

(** C7: for a registered device with a pattern and a valid request, when
    the exchange returns, without error, a map that does not have exactly
    one entry or that lacks the key [org/pattern], the workflow stops
    with a system error: after the read of the device and the pattern
    fetch, the only call is the error handler's (no workload is resolved,
    no service created, no state persisted). *)
Theorem UpdateConfigstate_pattern_count (cfg : Configstate) (st : St W Service)
    (pDevice : ExchangeDevice) (patterns : gmap string PatternDefinition) (w1 : W) :
  FindExchangeDevice E (world st) = (Some pDevice, None) ->
  State cfg = Some CONFIGSTATE_CONFIGURED ->
  PState (Config pDevice) = CONFIGSTATE_CONFIGURING ->
  Pattern pDevice <> "" ->
  getPatterns E (Org pDevice) (Pattern pDevice) (GetId E pDevice) (Token pDevice)
    (world st) = ((patterns, None), w1) ->
  size patterns <> 1
  \/ patterns !! (Org pDevice ++ "/" ++ Pattern pDevice)%string = None ->
  exists text,
    UpdateConfigstate (Msg := Msg) E cfg st
    = (Done ((errorhandler E (SystemError text) w1).1, None, []),
       {| world := (errorhandler E (SystemError text) w1).2;
          calls := calls st ++
            [CallFindExchangeDevice;
             CallGetPatterns (Org pDevice) (Pattern pDevice) (GetId E pDevice)
               (Token pDevice);
             CallErrorHandler (SystemError text)] |}).
Proof.
  intros Hfind Hcfg Hcur Hpat Hget Hbad.
  rewrite (UpdateConfigstate_registered E cfg st pDevice _ Hfind Hcfg).
  cbv zeta. rewrite Hcur. simpl.
  destruct (String.eqb_spec (Pattern pDevice) "") as [Heq | _]; [contradiction |].
  simpl negb. cbv iota.
  unfold autoconfig.
  unfold bind at 1. rewrite bind_call. cbn [world]. rewrite Hget. cbn [fst snd].
  destruct (Nat.eqb_spec (size patterns) 1) as [Hone | Hmany]; cbn [negb].
  - destruct Hbad as [Hsize | Hkey]; [contradiction |].
    rewrite Hkey. rewrite bind_fault_return. cbn [world calls].
    eexists. rewrite <- !app_assoc. reflexivity.
  - rewrite bind_fault_return. cbn [world calls].
    eexists. rewrite <- !app_assoc. reflexivity.
Qed.

End TransitionClaims.

Lemma UpdateConfigstate_noop_witness :
  PState (Config (Scenario.node "netspeed" "configured")) = "configured"
  /\ UpdateConfigstate Scenario.E_netspeed (Scenario.request "configured")
       (Scenario.registered "netspeed" "configured" [])
     = (Done (false, Some {| State := Some "configured" |}, []),
        {| world := world (Scenario.registered "netspeed" "configured" []);
           calls := [CallFindExchangeDevice] |}).
Proof.
  split; [reflexivity |].
  exact (proj2 (UpdateConfigstate_noop Scenario.E_netspeed
                  (Scenario.request "configured")
                  (Scenario.registered "netspeed" "configured" [])
                  (Scenario.node "netspeed" "configured") "configured")
           eq_refl eq_refl eq_refl (or_intror eq_refl)).
Defined.

(** C3 as stated fails: for the identical pair [ValidStateChange] is
    false, yet the request is answered with the current state and no
    fault; and a target outside the two states is answered with a fault
    that names the supported values, not the two states. *)
Lemma UpdateConfigstate_invalid_pair_without_transition_fault :
  (ValidStateChange "configured" "configured" = false
   /\ UpdateConfigstate Scenario.E_netspeed (Scenario.request "configured")
        (Scenario.registered "netspeed" "configured" [])
      = (Done (false, Some {| State := Some "configured" |}, []),
         {| world := world (Scenario.registered "netspeed" "configured" []);
            calls := [CallFindExchangeDevice] |}))
  /\ (ValidStateChange "configuring" "active" = false
      /\ calls (UpdateConfigstate Scenario.E_netspeed (Scenario.request "active")
                  (Scenario.registered "netspeed" "configuring" [])).2
         = [CallFindExchangeDevice;
            CallErrorHandler
              (APIUserInputError
                 "Supported state values are 'configuring' and 'configured'."
                 "configstate.state")]).
Proof. repeat split; reflexivity. Qed.

Lemma UpdateConfigstate_unsupported_transition_witness :
  (PState (Config (Scenario.node "netspeed" "configured")) <> "configuring"
   /\ ValidStateChange (PState (Config (Scenario.node "netspeed" "configured")))
        "configuring" = false)
  /\ UpdateConfigstate Scenario.E_netspeed (Scenario.request "configuring")
       (Scenario.registered "netspeed" "configured" [])
     = (Done (true, None, []),
        {| world :=
             {| Scenario.device := Some (Scenario.node "netspeed" "configured");
                Scenario.configured := [];
                Scenario.response :=
                  [APIUserInputError
                     "Transition from 'configured' to 'configuring' is not supported."
                     "configstate.state"] |};
           calls :=
             [CallFindExchangeDevice;
              CallErrorHandler
                (APIUserInputError
                   "Transition from 'configured' to 'configuring' is not supported."
                   "configstate.state")] |}).
Proof.
  split; [split; [discriminate | reflexivity] |].
  exact (proj2 (UpdateConfigstate_unsupported_transition Scenario.E_netspeed
                  (Scenario.request "configuring")
                  (Scenario.registered "netspeed" "configured" [])
                  (Scenario.node "netspeed" "configured") "configuring")
           eq_refl eq_refl (or_introl eq_refl)
           ltac:(discriminate) eq_refl).
Defined.

Lemma UpdateConfigstate_pattern_count_witness :
  size (∅ : gmap string PatternDefinition) <> 1
  /\ exists text,
       UpdateConfigstate Scenario.E_nopattern (Scenario.request "configured")
         (Scenario.registered "netspeed" "configuring" [])
       = (Done (true, None, []),
          {| world :=
               {| Scenario.device := Some (Scenario.node "netspeed" "configuring");
                  Scenario.configured := [];
                  Scenario.response := [SystemError text] |};
             calls :=
               [CallFindExchangeDevice;
                CallGetPatterns "IBM" "netspeed" "IBM/node1" "secret";
                CallErrorHandler (SystemError text)] |}).
Proof.
  split; [vm_compute; discriminate |].
  apply (UpdateConfigstate_pattern_count Scenario.E_nopattern
           (Scenario.request "configured")
           (Scenario.registered "netspeed" "configuring" [])
           (Scenario.node "netspeed" "configuring") ∅
           (world (Scenario.registered "netspeed" "configuring" []))).
  - reflexivity.
  - reflexivity.
  - reflexivity.
  - discriminate.
  - reflexivity.
  - left. vm_compute. discriminate.
Defined.

(** ** Pattern resolution *)

Section Resolution.

Context {W Service Msg : Type}.
Variable E : Env W Service Msg.
Variable pDevice : ExchangeDevice.
Variable thisArch : string.

Local Abbreviation Ret := (bool * option Configstate * list Msg)%type.

Lemma resolveWorkloads_cons_skip (w : WorkloadReference)
    (ws : list WorkloadReference) (total : APISpecList) :
  WorkloadArch w <> thisArch ->
  resolveWorkloads E pDevice thisArch (w :: ws) total
  = resolveWorkloads E pDevice thisArch ws total.
Proof.
  intros Hne. simpl.
  destruct (String.eqb_spec (WorkloadArch w) thisArch); [contradiction | reflexivity].
Qed.

Lemma resolveWorkloads_cons_match (w : WorkloadReference)
    (ws : list WorkloadReference) (total : APISpecList) :
  WorkloadArch w = thisArch ->
  resolveWorkloads E pDevice thisArch (w :: ws) total
  = bind (resolveChoices E pDevice thisArch w (WorkloadVersions w) total)
      (andThen (resolveWorkloads E pDevice thisArch ws)).
Proof.
  intros Heq. simpl.
  destruct (String.eqb_spec (WorkloadArch w) thisArch); [reflexivity | contradiction].
Qed.

Lemma resolveChoices_fold (w : WorkloadReference) (cs : list WorkloadChoice) :
  forall (total : APISpecList) (st : St W Service),
    resolveChoices E pDevice thisArch w cs total st
    = spec_resolve E pDevice thisArch (map (fun c => (w, c)) cs) total st.
Proof.
  induction cs as [| c cs IH]; intros total st; [reflexivity |].
  simpl. rewrite !bind_call.
  destruct (resolveWorkload E _ _ _ _ _ _ (world st)) as [[sub [e |]] w1];
    cbn [fst snd]; [reflexivity |].
  unfold accumulate.
  destruct (ReplaceHigherSharedSingleton E total sub) as [total1 sub1].
  apply IH.
Qed.

Lemma spec_resolve_app (cs1 cs2 : list (WorkloadReference * WorkloadChoice)) :
  forall (total : APISpecList) (st : St W Service),
    spec_resolve E pDevice thisArch (cs1 ++ cs2) total st
    = bind (spec_resolve E pDevice thisArch cs1 total)
        (andThen (spec_resolve E pDevice thisArch cs2)) st.
Proof.
  induction cs1 as [| [w c] cs1 IH]; intros total st; [reflexivity |].
  simpl. unfold bind at 3. rewrite !bind_call.
  destruct (resolveWorkload E _ _ _ _ _ _ (world st)) as [[sub [e |]] w1];
    cbn [fst snd].
  - rewrite bind_fault_return. reflexivity.
  - rewrite IH. reflexivity.
Qed.

(** C5: a workload whose architecture differs from the node's is skipped
    entirely: wherever it stands in the pattern, resolution runs exactly
    as for the pattern without it, from any running total and state: same
    result (so it adds no entry and raises no fault), same world and same
    calls (so no [resolveWorkload] call is made for its version
    choices). *)
Theorem resolveWorkloads_skips_other_arch (before after : list WorkloadReference)
    (w : WorkloadReference) (total : APISpecList) (st : St W Service) :
  WorkloadArch w <> thisArch ->
  resolveWorkloads E pDevice thisArch (before ++ w :: after) total st
  = resolveWorkloads E pDevice thisArch (before ++ after) total st.
Proof.
  intros Hne. revert total st.
  induction before as [| b before IH]; intros total st.
  - simpl app. rewrite resolveWorkloads_cons_skip by assumption. reflexivity.
  - rewrite <- !app_comm_cons.
    destruct (decide (WorkloadArch b = thisArch)) as [Hb | Hb].
    + rewrite !resolveWorkloads_cons_match by assumption.
      unfold bind.
      destruct (resolveChoices E pDevice thisArch b (WorkloadVersions b) total st)
        as [[[total1 | x] | p] st1]; try reflexivity.
      simpl. apply IH.
    + rewrite !resolveWorkloads_cons_skip by assumption. apply IH.
Qed.

(** C6: the two nested loops are the fold, over the version choices of
    the architecture-matching workloads in declaration order, that calls
    [resolveWorkload] and replaces the running total by [accumulate] of
    it and the sub-list returned: [ReplaceHigherSharedSingleton] of the
    total against the sub-list first, [MergeWith] of the sub-list into the
    total second. *)
Theorem resolveWorkloads_accumulates (ws : list WorkloadReference)
    (total : APISpecList) (st : St W Service) :
  resolveWorkloads E pDevice thisArch ws total st
  = spec_resolve E pDevice thisArch (matchingChoices thisArch ws) total st.
Proof.
  revert total st. induction ws as [| w ws IH]; intros total st; [reflexivity |].
  unfold matchingChoices.
  destruct (decide (WorkloadArch w = thisArch)) as [Hw | Hw].
  - rewrite filter_cons_True by assumption. simpl flat_map.
    rewrite spec_resolve_app, resolveWorkloads_cons_match by assumption.
    unfold bind. rewrite resolveChoices_fold.
    destruct (spec_resolve E pDevice thisArch _ total st)
      as [[[total1 | x] | p] st1]; try reflexivity.
    simpl. apply IH.
  - rewrite filter_cons_False by assumption.
    rewrite resolveWorkloads_cons_skip by assumption. apply IH.
Qed.

End Resolution.

Lemma resolveWorkloads_skips_other_arch_witness :
  WorkloadArch Scenario.netspeed_arm <> "amd64"
  /\ resolveWorkloads Scenario.E_netspeed (Scenario.node "netspeed" "configuring")
       "amd64" ([] ++ Scenario.netspeed_arm :: [Scenario.netspeed]) []
       (Scenario.registered "netspeed" "configuring" [])
     = resolveWorkloads Scenario.E_netspeed (Scenario.node "netspeed" "configuring")
         "amd64" ([] ++ [Scenario.netspeed]) []
         (Scenario.registered "netspeed" "configuring" []).
Proof.
  split; [discriminate |].
  apply (resolveWorkloads_skips_other_arch Scenario.E_netspeed). discriminate.
Defined.

(** ** Auto-configuration *)

Section AutoConfiguration.

Context {W Service Msg : Type}.
Variable E : Env W Service Msg.

Local Abbreviation Ret := (bool * option Configstate * list Msg)%type.

Lemma classify_Created (r : bool * option Service * Msg) (cse : option error)
    (msg : Msg) :
  classify (r, cse) = Created msg -> exists newService, r = (false, newService, msg).
Proof.
  destruct r as [[[|] newService] m]; simpl.
  - destruct cse as [[] |]; discriminate.
  - intros [= ->]. eauto.
Qed.

Lemma classify_AlreadyPresent (r : bool * option Service * Msg)
    (cse : option error) :
  classify (r, cse) = AlreadyPresent (Msg := Msg) ->
  exists newService m text,
    r = (true, newService, m) /\ cse = Some (DuplicateServiceError text).
Proof.
  destruct r as [[[|] newService] m]; simpl; [| discriminate].
  destruct cse as [[] |]; try discriminate. eauto 6.
Qed.

Lemma classify_NeedsManualConfig (r : bool * option Service * Msg)
    (cse : option error) (detail : string) :
  classify (r, cse) = NeedsManualConfig (Msg := Msg) detail ->
  exists newService m,
    r = (true, newService, m) /\ cse = Some (MSMissingVariableConfigError detail).
Proof.
  destruct r as [[[|] newService] m]; simpl; [| discriminate].
  destruct cse as [[] |]; try discriminate. intros [= ->]. eauto.
Qed.

(** One turn of the loop, by outcome. *)
Lemma createServices_created (err : option error) (apiSpec : APISpecification)
    (specs : APISpecList) (cse : option error) (msgs : list Msg)
    (st : St W Service) r msg cse1 w1 :
  CreateService E (serviceFor E apiSpec) cse (world st) = ((r, cse1), w1) ->
  classify (r, cse1) = Created msg ->
  createServices E err (apiSpec :: specs) cse msgs st
  = createServices E err specs cse1 (msgs ++ [msg])
      {| world := w1; calls := calls st ++ [CallCreateService (serviceFor E apiSpec)] |}.
Proof.
  intros Hcall Hclass. apply classify_Created in Hclass as [newService ->].
  simpl. rewrite bind_call. fold (serviceFor E apiSpec). rewrite Hcall. reflexivity.
Qed.

Lemma createServices_present (err : option error) (apiSpec : APISpecification)
    (specs : APISpecList) (cse : option error) (msgs : list Msg)
    (st : St W Service) r cse1 w1 :
  CreateService E (serviceFor E apiSpec) cse (world st) = ((r, cse1), w1) ->
  classify (r, cse1) = AlreadyPresent ->
  createServices E err (apiSpec :: specs) cse msgs st
  = createServices E err specs cse1 msgs
      {| world := w1; calls := calls st ++ [CallCreateService (serviceFor E apiSpec)] |}.
Proof.
  intros Hcall Hclass.
  apply classify_AlreadyPresent in Hclass as (newService & m & text & -> & ->).
  simpl. rewrite bind_call. fold (serviceFor E apiSpec). rewrite Hcall. reflexivity.
Qed.

(** At line 151 the assertion is applied to [err], which is nil there. *)
Lemma createServices_needs_config (apiSpec : APISpecification)
    (specs : APISpecList) (cse : option error) (msgs : list Msg)
    (st : St W Service) r cse1 w1 detail :
  CreateService E (serviceFor E apiSpec) cse (world st) = ((r, cse1), w1) ->
  classify (r, cse1) = NeedsManualConfig detail ->
  createServices E None (apiSpec :: specs) cse msgs st
  = (Panic (InterfaceConversion "<nil>" "*api.MSMissingVariableConfigError"),
     {| world := w1; calls := calls st ++ [CallCreateService (serviceFor E apiSpec)] |}).
Proof.
  intros Hcall Hclass.
  apply classify_NeedsManualConfig in Hclass as (newService & m & -> & ->).
  simpl. rewrite bind_call. fold (serviceFor E apiSpec). rewrite Hcall. reflexivity.
Qed.

(** A recoverable prefix of the list is passed over, leaving one
    notification per created dependency. *)
Lemma createServices_recoverable_prefix (err : option error)
    (pre : APISpecList) cse w created cse' w' :
  Recoverable E pre cse w created cse' w' ->
  forall (rest : APISpecList) (msgs : list Msg) (trace : list (Call Service)),
    createServices E err (pre ++ rest) cse msgs {| world := w; calls := trace |}
    = createServices E err rest cse' (msgs ++ created)
        {| world := w'; calls := trace ++ createCalls E pre |}.
Proof.
  induction 1 as [cse w
                 | apiSpec specs cse w r msg cse1 w1 created cse' w' Hcall Hclass _ IH
                 | apiSpec specs cse w r cse1 w1 created cse' w' Hcall Hclass _ IH];
    intros rest msgs trace.
  - simpl. rewrite !app_nil_r. reflexivity.
  - rewrite <- app_comm_cons.
    rewrite (createServices_created err apiSpec _ cse msgs
               {| world := w; calls := trace |} r msg cse1 w1 Hcall Hclass).
    rewrite IH. cbn [calls createCalls map]. rewrite <- !app_assoc. reflexivity.
  - rewrite <- app_comm_cons.
    rewrite (createServices_present err apiSpec _ cse msgs
               {| world := w; calls := trace |} r cse1 w1 Hcall Hclass).
    rewrite IH. cbn [calls createCalls map]. rewrite <- !app_assoc. reflexivity.
Qed.

(** The path from a valid request of a patterned device to the
    provisioning loop. *)
Lemma UpdateConfigstate_reaches_createServices (cfg : Configstate)
    (st : St W Service) (pDevice : ExchangeDevice)
    (patterns : gmap string PatternDefinition) (patternDef : PatternDefinition)
    (w1 : W) (specs : APISpecList) (st2 : St W Service) :
  FindExchangeDevice E (world st) = (Some pDevice, None) ->
  State cfg = Some CONFIGSTATE_CONFIGURED ->
  PState (Config pDevice) = CONFIGSTATE_CONFIGURING ->
  Pattern pDevice <> "" ->
  getPatterns E (Org pDevice) (Pattern pDevice) (GetId E pDevice) (Token pDevice)
    (world st) = ((patterns, None), w1) ->
  size patterns = 1 ->
  patterns !! (Org pDevice ++ "/" ++ Pattern pDevice)%string = Some patternDef ->
  resolveWorkloads E pDevice (ArchString E) (Workloads patternDef) []
    {| world := w1;
       calls := calls st ++
         [CallFindExchangeDevice;
          CallGetPatterns (Org pDevice) (Pattern pDevice) (GetId E pDevice)
            (Token pDevice)] |}
  = (Done (Continue specs), st2) ->
  UpdateConfigstate E cfg st
  = bind (createServices E None specs None [])
      (fun r =>
         match r with
         | Return x => ret x
         | Continue msgs => persistState E pDevice CONFIGSTATE_CONFIGURED msgs
         end) st2.
Proof.
  intros Hfind Hcfg Hcur Hpat Hget Hsize Hkey Hresolve.
  rewrite (UpdateConfigstate_registered E cfg st pDevice _ Hfind Hcfg).
  cbv zeta. rewrite Hcur. simpl.
  destruct (String.eqb_spec (Pattern pDevice) "") as [Heq | _]; [contradiction |].
  simpl negb. cbv iota.
  unfold autoconfig.
  unfold bind at 1. rewrite bind_call. cbn [world calls]. rewrite Hget. cbn [fst snd].
  rewrite Hsize. cbn [Nat.eqb negb]. rewrite Hkey.
  rewrite <- app_assoc. simpl app.
  rewrite (bind_done _ _ _ _ _ Hresolve). reflexivity.
Qed.

End AutoConfiguration.

Section AutoConfigurationClaims.

Context {W Service Msg : Type}.
Variable E : Env W Service Msg.

(** C2: for a valid request of a registered device whose pattern resolves
    to [specs], when every dependency is either created or already
    present ([Recoverable], a [DuplicateServiceError] outcome counting as
    present), the loop asks for every dependency in turn, the new state
    is persisted and the workflow returns it unhandled, and the
    notifications returned are exactly those of the created
    dependencies, in the order of [specs]. *)
Theorem UpdateConfigstate_already_present_is_success (cfg : Configstate)
    (st : St W Service) (pDevice : ExchangeDevice)
    (patterns : gmap string PatternDefinition) (patternDef : PatternDefinition)
    (w1 : W) (specs : APISpecList) (st2 : St W Service)
    (created : list Msg) (cse' : option error) (w3 : W)
    (updatedDev : ExchangeDevice) (w4 : W) :
  FindExchangeDevice E (world st) = (Some pDevice, None) ->
  State cfg = Some CONFIGSTATE_CONFIGURED ->
  PState (Config pDevice) = CONFIGSTATE_CONFIGURING ->
  Pattern pDevice <> "" ->
  getPatterns E (Org pDevice) (Pattern pDevice) (GetId E pDevice) (Token pDevice)
    (world st) = ((patterns, None), w1) ->
  size patterns = 1 ->
  patterns !! (Org pDevice ++ "/" ++ Pattern pDevice)%string = Some patternDef ->
  resolveWorkloads E pDevice (ArchString E) (Workloads patternDef) []
    {| world := w1;
       calls := calls st ++
         [CallFindExchangeDevice;
          CallGetPatterns (Org pDevice) (Pattern pDevice) (GetId E pDevice)
            (Token pDevice)] |}
  = (Done (Continue specs), st2) ->
  Recoverable E specs None (world st2) created cse' w3 ->
  SetConfigstate E pDevice (Id pDevice) CONFIGSTATE_CONFIGURED w3
  = ((updatedDev, None), w4) ->
  UpdateConfigstate E cfg st
  = (Done (false, Some {| State := Some (PState (Config updatedDev)) |}, created),
     {| world := w4;
        calls := calls st2 ++ createCalls E specs
                 ++ [CallSetConfigstate (Id pDevice) CONFIGSTATE_CONFIGURED] |}).
Proof.
  intros Hfind Hcfg Hcur Hpat Hget Hsize Hkey Hresolve Hrun Hset.
  rewrite (UpdateConfigstate_reaches_createServices E cfg st pDevice patterns
             patternDef w1 specs st2) by assumption.
  destruct st2 as [w2 trace]. cbn [world calls] in *.
  pose proof (createServices_recoverable_prefix E None specs None w2 created cse' w3
                Hrun [] [] trace) as Hloop.
  rewrite app_nil_r in Hloop. simpl in Hloop.
  rewrite (bind_done _ _ _ _ _ Hloop).
  unfold persistState. rewrite bind_call. cbn [world calls]. rewrite Hset.
  cbn [fst snd]. unfold ret, ConvertFromPersistentHorizonDevice. simpl HConfig.
  rewrite <- app_assoc. reflexivity.
Qed.

(** C10: whenever the loop reaches a dependency that needs manual
    configuration (the dependencies before it being created or already
    present), the variable [err] asserted at line 151 is nil, not a
    [*MSMissingVariableConfigError], and [UpdateConfigstate] panics, right
    after that service-creation call. *)
Theorem UpdateConfigstate_needs_config_panics (cfg : Configstate)
    (st : St W Service) (pDevice : ExchangeDevice)
    (patterns : gmap string PatternDefinition) (patternDef : PatternDefinition)
    (w1 : W) (pre : APISpecList) (apiSpec : APISpecification) (rest : APISpecList)
    (st2 : St W Service) (created : list Msg) (cse1 : option error) (w3 : W)
    r (cse2 : option error) (w4 : W) (detail : string) :
  FindExchangeDevice E (world st) = (Some pDevice, None) ->
  State cfg = Some CONFIGSTATE_CONFIGURED ->
  PState (Config pDevice) = CONFIGSTATE_CONFIGURING ->
  Pattern pDevice <> "" ->
  getPatterns E (Org pDevice) (Pattern pDevice) (GetId E pDevice) (Token pDevice)
    (world st) = ((patterns, None), w1) ->
  size patterns = 1 ->
  patterns !! (Org pDevice ++ "/" ++ Pattern pDevice)%string = Some patternDef ->
  resolveWorkloads E pDevice (ArchString E) (Workloads patternDef) []
    {| world := w1;
       calls := calls st ++
         [CallFindExchangeDevice;
          CallGetPatterns (Org pDevice) (Pattern pDevice) (GetId E pDevice)
            (Token pDevice)] |}
  = (Done (Continue (pre ++ apiSpec :: rest)), st2) ->
  Recoverable E pre None (world st2) created cse1 w3 ->
  CreateService E (serviceFor E apiSpec) cse1 w3 = ((r, cse2), w4) ->
  classify (r, cse2) = NeedsManualConfig detail ->
  assert_MSMissingVariableConfigError (W := W) (Service := Service) None
    {| world := w4; calls := [] |}
  = (Panic (InterfaceConversion "<nil>" "*api.MSMissingVariableConfigError"),
     {| world := w4; calls := [] |})
  /\ UpdateConfigstate (Msg := Msg) E cfg st
     = (Panic (InterfaceConversion "<nil>" "*api.MSMissingVariableConfigError"),
        {| world := w4;
           calls := calls st2 ++ createCalls E pre
                    ++ [CallCreateService (serviceFor E apiSpec)] |}).
Proof.
  intros Hfind Hcfg Hcur Hpat Hget Hsize Hkey Hresolve Hrun Hcall Hclass.
  split; [reflexivity |].
  rewrite (UpdateConfigstate_reaches_createServices E cfg st pDevice patterns
             patternDef w1 _ st2) by eassumption.
  destruct st2 as [w2 trace]. cbn [world calls] in *.
  apply bind_panic.
  rewrite (createServices_recoverable_prefix E None pre None w2 created cse1 w3 Hrun).
  rewrite (createServices_needs_config E apiSpec rest cse1 _ _ r cse2 w4 detail)
    by assumption.
  cbn [calls]. rewrite <- app_assoc. reflexivity.
Qed.

End AutoConfigurationClaims.

Lemma UpdateConfigstate_already_present_is_success_witness :
  classify (Scenario.create (serviceFor Scenario.E_netspeed Scenario.X) None
              (world (Scenario.registered "netspeed" "configuring"
                        ["bluehorizon.network-microservices-network_IBM_1.0.0"]))).1
  = AlreadyPresent
  /\ (UpdateConfigstate Scenario.E_netspeed (Scenario.request "configured")
        (Scenario.registered "netspeed" "configuring"
           ["bluehorizon.network-microservices-network_IBM_1.0.0"])).1
     = Done (false, Some {| State := Some "configured" |},
             ["policy for bluehorizon.network-microservices-gps_IBM_2.0.3"]).
Proof.
  split; [reflexivity |].
  eapply eq_trans.
  - eapply (f_equal fst).
    eapply (UpdateConfigstate_already_present_is_success Scenario.E_netspeed
              (Scenario.request "configured")
              (Scenario.registered "netspeed" "configuring"
                 ["bluehorizon.network-microservices-network_IBM_1.0.0"])
              (Scenario.node "netspeed" "configuring")
              Scenario.netspeedPattern
              {| Workloads := [Scenario.netspeed_arm; Scenario.netspeed] |}).
    + reflexivity.
    + reflexivity.
    + reflexivity.
    + discriminate.
    + reflexivity.
    + reflexivity.
    + reflexivity.
    + reflexivity.
    + eapply Recoverable_present; [reflexivity | reflexivity |].
      eapply Recoverable_created; [reflexivity | reflexivity |].
      apply Recoverable_nil.
    + reflexivity.
  - reflexivity.
Defined.

Lemma UpdateConfigstate_needs_config_panics_witness :
  classify (Scenario.create (serviceFor Scenario.E_location Scenario.Z) None
              {| Scenario.device := Some (Scenario.node "location" "configuring");
                 Scenario.configured :=
                   ["bluehorizon.network-microservices-gps_IBM_2.0.3"];
                 Scenario.response := [] |}).1
  = NeedsManualConfig "variable freq is missing"
  /\ (UpdateConfigstate Scenario.E_location (Scenario.request "configured")
        (Scenario.registered "location" "configuring" [])).1
     = Panic (InterfaceConversion "<nil>" "*api.MSMissingVariableConfigError").
Proof.
  split; [reflexivity |].
  eapply eq_trans.
  - eapply (f_equal fst).
    eapply proj2.
    eapply (UpdateConfigstate_needs_config_panics Scenario.E_location
              (Scenario.request "configured")
              (Scenario.registered "location" "configuring" [])
              (Scenario.node "location" "configuring")
              Scenario.locationPattern
              {| Workloads := [Scenario.location] |}
              _ [Scenario.Y] Scenario.Z []).
    + reflexivity.
    + reflexivity.
    + reflexivity.
    + discriminate.
    + reflexivity.
    + reflexivity.
    + reflexivity.
    + reflexivity.
    + eapply Recoverable_created; [reflexivity | reflexivity |].
      apply Recoverable_nil.
    + reflexivity.
    + reflexivity.
  - reflexivity.
Defined.

(** C1 on a node: the pattern resolves to [Y] and [Z], [Y] is created and
    [Z] needs manual configuration. The pass stops there and the state is
    not persisted (the device record still says ["configuring"], no
    [SetConfigstate] call), but no fault reaches the error handler: the
    workflow panics. *)
Theorem UpdateConfigstate_manual_config_scenario :
  UpdateConfigstate Scenario.E_location (Scenario.request "configured")
    (Scenario.registered "location" "configuring" [])
  = (Panic (InterfaceConversion "<nil>" "*api.MSMissingVariableConfigError"),
     {| world :=
          {| Scenario.device := Some (Scenario.node "location" "configuring");
             Scenario.configured := ["bluehorizon.network-microservices-gps_IBM_2.0.3"];
             Scenario.response := [] |};
        calls :=
          [CallFindExchangeDevice;
           CallGetPatterns "IBM" "location" "IBM/node1" "secret";
           CallResolveWorkload "https://bluehorizon.network/workloads/location"
             "IBM" "1.2.0" "amd64" "IBM/node1" "secret";
           CallCreateService
             ("https://bluehorizon.network/microservices/gps", "IBM",
              "bluehorizon.network-microservices-gps_IBM_2.0.3", "2.0.3");
           CallCreateService
             ("https://bluehorizon.network/microservices/sdr", "IBM",
              "bluehorizon.network-microservices-sdr_IBM_0.4.1", "0.4.1")] |}).
Proof. vm_compute. reflexivity. Qed.

(** ** Service names *)

Lemma Cut_at_first (a b : string) (sep : ascii) :
  GoStrings.Count a sep = 0 ->
  GoStrings.Cut (a ++ String sep b) sep = Some (a, b).
Proof.
  induction a as [| c a IH]; simpl.
  - intros _. rewrite Ascii.eqb_refl. reflexivity.
  - destruct (Ascii.eqb c sep); [discriminate |].
    intros H. rewrite (IH H). reflexivity.
Qed.

Lemma Cut_absent (s : string) (sep : ascii) :
  GoStrings.Count s sep = 0 -> GoStrings.Cut s sep = None.
Proof.
  induction s as [| c s IH]; simpl; [reflexivity |].
  destruct (Ascii.eqb c sep); [discriminate |].
  intros H. rewrite (IH H). reflexivity.
Qed.

Lemma Cut_Count (s a b : string) (sep : ascii) :
  GoStrings.Cut s sep = Some (a, b) ->
  GoStrings.Count s sep = S (GoStrings.Count b sep).
Proof.
  revert a. induction s as [| c s IH]; simpl; [discriminate |].
  intros a. destruct (Ascii.eqb c sep).
  - intros [= _ ->]. reflexivity.
  - destruct (GoStrings.Cut s sep) as [[a' b'] |]; [| discriminate].
    intros [= _ ->]. apply (IH a'). reflexivity.
Qed.

Lemma slash_append (s : string) : ("/" ++ s)%string = String slash s.
Proof. reflexivity. Qed.

Lemma SplitN_three_pieces (first second rest : string) :
  GoStrings.Count first slash = 0 ->
  GoStrings.Count second slash = 0 ->
  GoStrings.SplitN (first ++ "/" ++ second ++ "/" ++ rest) slash 3
  = [first; second; rest].
Proof.
  intros H1 H2. unfold GoStrings.SplitN. simpl. rewrite !slash_append.
  rewrite (Cut_at_first first _ slash H1), (Cut_at_first second _ slash H2).
  reflexivity.
Qed.

Lemma SplitN_few_slashes (url : string) :
  GoStrings.Count url slash < 2 ->
  length (GoStrings.SplitN url slash 3) < 3.
Proof.
  intros H. unfold GoStrings.SplitN. simpl.
  destruct (GoStrings.Cut url slash) as [[a b] |] eqn:Hcut; simpl; [| lia].
  apply Cut_Count in Hcut.
  rewrite Cut_absent by lia. simpl. lia.
Qed.

(** C8 as stated fails: the name is not a function of the last path
    segment, the organization and the version. The reference of the
    repository's policy example has last segment [cpu_temp] and its name
    starts with host and path; two references with the same last segment
    get different names. *)
Lemma makeServiceName_not_of_last_segment :
  (spec_lastPathSegment "http://mycompany.com/dm/cpu_temp" = "cpu_temp"
   /\ makeServiceName "http://mycompany.com/dm/cpu_temp" "myorg" "1.0.1"
      = "mycompany.com-dm-cpu_temp_myorg_1.0.1")
  /\ (spec_lastPathSegment "http://mycompany.com/dm/gps"
      = spec_lastPathSegment "http://mycompany.com/ms/gps"
      /\ makeServiceName "http://mycompany.com/dm/gps" "myorg" "1.0.1"
         <> makeServiceName "http://mycompany.com/ms/gps" "myorg" "1.0.1").
Proof. repeat split; try reflexivity. discriminate. Qed.

(** C8, as amended: for a reference with at least two slashes, the name
    is made of what follows the second slash (host and path for an
    absolute URL), one trailing slash removed and the slashes replaced by
    hyphens, then the organization, then the version, joined by
    underscores; for a reference with fewer than two slashes the first
    part is empty. *)
Theorem makeServiceName_derivation (first second rest url msOrg msVersion : string) :
  (GoStrings.Count first slash = 0 ->
   GoStrings.Count second slash = 0 ->
   makeServiceName (first ++ "/" ++ second ++ "/" ++ rest) msOrg msVersion
   = (GoStrings.Replace (GoStrings.TrimSuffix rest slash) slash hyphen
      ++ "_" ++ msOrg ++ "_" ++ msVersion)%string)
  /\ (GoStrings.Count url slash < 2 ->
      makeServiceName url msOrg msVersion = ("_" ++ msOrg ++ "_" ++ msVersion)%string).
Proof.
  split.
  - intros H1 H2. unfold makeServiceName.
    rewrite (SplitN_three_pieces first second rest H1 H2). reflexivity.
  - intros H. unfold makeServiceName.
    pose proof (SplitN_few_slashes url H) as Hlen.
    rewrite bool_decide_eq_false_2 by lia. reflexivity.
Qed.

Lemma makeServiceName_derivation_witness :
  (GoStrings.Count "https:" slash = 0 /\ GoStrings.Count "" slash = 0
   /\ GoStrings.Count "gps" slash < 2)
  /\ makeServiceName "https://bluehorizon.network/microservices/gps/" "IBM" "2.0.3"
     = "bluehorizon.network-microservices-gps_IBM_2.0.3"
  /\ makeServiceName "gps" "IBM" "2.0.3" = "_IBM_2.0.3".
Proof.
  split; [repeat split; simpl; lia |].
  split.
  - exact (proj1 (makeServiceName_derivation "https:" ""
                    "bluehorizon.network/microservices/gps/" "gps" "IBM" "2.0.3")
             eq_refl eq_refl).
  - apply (proj2 (makeServiceName_derivation "https:" ""
                    "bluehorizon.network/microservices/gps/" "gps" "IBM" "2.0.3")).
    simpl. lia.
Defined.

(** ** End-to-end runs *)

(** No device record: a not-found fault, whatever the request. *)
Example scenario_unregistered :
  (UpdateConfigstate Scenario.E_netspeed (Scenario.request "configured")
     (Scenario.start None [])).1
  = Done (true, None, [])
  /\ Scenario.response (world (UpdateConfigstate Scenario.E_netspeed (Scenario.request "configured")
                        (Scenario.start None [])).2)
     = [NotFoundError "Exchange registration not recorded. Complete account and device registration with an exchange and then record device registration using this API's /horizondevice path."].
Proof. split; reflexivity. Qed.

(** A device without pattern: the state is persisted once, no
    notification. *)
Example scenario_no_pattern :
  UpdateConfigstate Scenario.E_netspeed (Scenario.request "configured")
    (Scenario.registered "" "configuring" [])
  = (Done (false, Some {| State := Some "configured" |}, []),
     {| world :=
          {| Scenario.device := Some (Scenario.node "" "configured");
             Scenario.configured := [];
             Scenario.response := [] |};
        calls := [CallFindExchangeDevice; CallSetConfigstate "node1" "configured"] |}).
Proof. reflexivity. Qed.

(** A request without state is dereferenced at line 79. *)
Example scenario_no_state :
  (UpdateConfigstate Scenario.E_netspeed {| State := None |}
     (Scenario.registered "netspeed" "configuring" [])).1
  = Panic NilPointerDereference.
Proof. reflexivity. Qed.

(** The non-matching workload of the pattern is not resolved. *)
Example scenario_resolution :
  (resolveWorkloads Scenario.E_netspeed (Scenario.node "netspeed" "configuring")
     "amd64" [Scenario.netspeed_arm; Scenario.netspeed] []
     (Scenario.registered "netspeed" "configuring" [])).1
  = Done (Continue [Scenario.X; Scenario.Y]).
Proof. reflexivity. Qed.

Example makeServiceName_cpu_temp :
  makeServiceName "http://mycompany.com/dm/cpu_temp" "myorg" "1.0.1"
  = "mycompany.com-dm-cpu_temp_myorg_1.0.1".
Proof. reflexivity. Qed.

Example makeServiceName_two_trailing :
  makeServiceName "http://h/gps//" "IBM" "1" = "h-gps-_IBM_1".
Proof. reflexivity. Qed.

(** * Further properties of the workflow *)

(** ** Early exits of [UpdateConfigstate] *)

Section EarlyExits.

Context {W Service Msg : Type}.
Variable E : Env W Service Msg.

(** X1: when the read of the device record fails, the request is answered
    with a system error carrying the store's error text, whatever the
    request and whatever device value came with the error; nothing else is
    called. *)
Theorem UpdateConfigstate_store_read_error (cfg : Configstate) (st : St W Service)
    (pDevice : option ExchangeDevice) (e : error) :
  FindExchangeDevice E (world st) = (pDevice, Some e) ->
  let fault := SystemError ("Unable to read horizondevice object, error " ++ Error E e)%string in
  UpdateConfigstate (Msg := Msg) E cfg st
  = (Done ((errorhandler E fault (world st)).1, None, []),
     {| world := (errorhandler E fault (world st)).2;
        calls := calls st ++ [CallFindExchangeDevice; CallErrorHandler fault] |}).
Proof.
  intros Hfind fault. unfold UpdateConfigstate, query.
  rewrite bind_call. cbn [fst snd world]. rewrite Hfind.
  rewrite fault_run. cbn [world calls]. rewrite <- app_assoc. reflexivity.
Qed.

(** X2: without a device record every request, even one that carries no
    state, is answered with a not-found fault; the requested state is not
    looked at and nothing else is called. *)
Theorem UpdateConfigstate_unregistered (cfg : Configstate) (st : St W Service) :
  FindExchangeDevice E (world st) = (None, None) ->
  exists text,
    UpdateConfigstate (Msg := Msg) E cfg st
    = (Done ((errorhandler E (NotFoundError text) (world st)).1, None, []),
       {| world := (errorhandler E (NotFoundError text) (world st)).2;
          calls := calls st ++
            [CallFindExchangeDevice; CallErrorHandler (NotFoundError text)] |}).
Proof.
  intros Hfind. unfold UpdateConfigstate, query.
  rewrite bind_call. cbn [fst snd world]. rewrite Hfind.
  rewrite fault_run. cbn [world calls]. rewrite <- app_assoc. eexists. reflexivity.
Qed.

(** X3: a requested state other than the two supported values is
    rejected with an invalid-input fault on [configstate.state], whatever
    the current state of the device (even the same value); nothing else
    is called. *)
Theorem UpdateConfigstate_unsupported_value (cfg : Configstate) (st : St W Service)
    (pDevice : ExchangeDevice) (to : string) :
  FindExchangeDevice E (world st) = (Some pDevice, None) ->
  State cfg = Some to ->
  to <> CONFIGSTATE_CONFIGURING ->
  to <> CONFIGSTATE_CONFIGURED ->
  let fault := APIUserInputError
                 "Supported state values are 'configuring' and 'configured'."
                 "configstate.state" in
  UpdateConfigstate (Msg := Msg) E cfg st
  = (Done ((errorhandler E fault (world st)).1, None, []),
     {| world := (errorhandler E fault (world st)).2;
        calls := calls st ++ [CallFindExchangeDevice; CallErrorHandler fault] |}).
Proof.
  intros Hfind Hcfg Hing Hed fault.
  rewrite (UpdateConfigstate_registered E cfg st pDevice to Hfind Hcfg).
  cbv zeta.
  destruct (String.eqb_spec to CONFIGSTATE_CONFIGURING) as [? | _]; [contradiction |].
  destruct (String.eqb_spec to CONFIGSTATE_CONFIGURED) as [? | _]; [contradiction |].
  cbn [negb andb]. rewrite fault_run. cbn [world calls].
  rewrite <- app_assoc. reflexivity.
Qed.

(** X4: a request without state, for a registered device, makes the
    workflow panic on the dereference of line 79, right after the read of
    the device record. *)
Theorem UpdateConfigstate_nil_state (cfg : Configstate) (st : St W Service)
    (pDevice : ExchangeDevice) :
  FindExchangeDevice E (world st) = (Some pDevice, None) ->
  State cfg = None ->
  UpdateConfigstate (Msg := Msg) E cfg st
  = (Panic NilPointerDereference,
     {| world := world st; calls := calls st ++ [CallFindExchangeDevice] |}).
Proof.
  intros Hfind Hcfg. unfold UpdateConfigstate, query.
  rewrite bind_call. cbn [fst snd world]. rewrite Hfind, Hcfg. reflexivity.
Qed.

(** X5: for a device in state ["configuring"] without pattern, a request
    for ["configured"] goes straight to the store: the state update is the
    only call after the device read, and its result is returned as the
    view, unhandled, with no notification. *)
Theorem UpdateConfigstate_without_pattern (cfg : Configstate) (st : St W Service)
    (pDevice updatedDev : ExchangeDevice) (w' : W) :
  FindExchangeDevice E (world st) = (Some pDevice, None) ->
  State cfg = Some CONFIGSTATE_CONFIGURED ->
  PState (Config pDevice) = CONFIGSTATE_CONFIGURING ->
  Pattern pDevice = "" ->
  SetConfigstate E pDevice (Id pDevice) CONFIGSTATE_CONFIGURED (world st)
  = ((updatedDev, None), w') ->
  UpdateConfigstate (Msg := Msg) E cfg st
  = (Done (false, Some {| State := Some (PState (Config updatedDev)) |}, []),
     {| world := w';
        calls := calls st ++
          [CallFindExchangeDevice;
           CallSetConfigstate (Id pDevice) CONFIGSTATE_CONFIGURED] |}).
Proof.
  intros Hfind Hcfg Hcur Hpat Hset.
  rewrite (UpdateConfigstate_registered E cfg st pDevice _ Hfind Hcfg).
  cbv zeta. rewrite Hcur, Hpat. simpl.
  unfold persistState. rewrite bind_ret, bind_call. cbn [world calls].
  rewrite Hset. cbn [fst snd]. rewrite <- app_assoc. reflexivity.
Qed.

(** X6: when the pattern fetch fails, the request is answered with a
    system error naming the pattern and carrying the error text; no
    workload is resolved, no service created, no state persisted. *)
Theorem UpdateConfigstate_pattern_fetch_error (cfg : Configstate) (st : St W Service)
    (pDevice : ExchangeDevice) (patterns : gmap string PatternDefinition)
    (e : error) (w1 : W) :
  FindExchangeDevice E (world st) = (Some pDevice, None) ->
  State cfg = Some CONFIGSTATE_CONFIGURED ->
  PState (Config pDevice) = CONFIGSTATE_CONFIGURING ->
  Pattern pDevice <> "" ->
  getPatterns E (Org pDevice) (Pattern pDevice) (GetId E pDevice) (Token pDevice)
    (world st) = ((patterns, Some e), w1) ->
  let fault := SystemError ("Unable to read pattern object " ++ Pattern pDevice
                            ++ " from exchange, error " ++ Error E e)%string in
  UpdateConfigstate (Msg := Msg) E cfg st
  = (Done ((errorhandler E fault w1).1, None, []),
     {| world := (errorhandler E fault w1).2;
        calls := calls st ++
          [CallFindExchangeDevice;
           CallGetPatterns (Org pDevice) (Pattern pDevice) (GetId E pDevice)
             (Token pDevice);
           CallErrorHandler fault] |}).
Proof.
  intros Hfind Hcfg Hcur Hpat Hget fault.
  rewrite (UpdateConfigstate_registered E cfg st pDevice _ Hfind Hcfg).
  cbv zeta. rewrite Hcur. simpl.
  destruct (String.eqb_spec (Pattern pDevice) "") as [Heq | _]; [contradiction |].
  simpl negb. cbv iota.
  unfold autoconfig.
  unfold bind at 1. rewrite bind_call. cbn [world calls]. rewrite Hget. cbn [fst snd].
  rewrite bind_fault_return. cbn [world calls].
  rewrite <- !app_assoc. reflexivity.
Qed.

End EarlyExits.

Lemma UpdateConfigstate_store_read_error_witness :
  (UpdateConfigstate (Failures.env Failures.storeDown Scenario.netspeedPattern)
     (Scenario.request "configured")
     (Scenario.registered "netspeed" "configuring" [])).1
  = Done (true, None, []).
Proof.
  eapply eq_trans.
  - eapply (f_equal fst).
    eapply (UpdateConfigstate_store_read_error
              (Failures.env Failures.storeDown Scenario.netspeedPattern)).
    reflexivity.
  - reflexivity.
Defined.

Lemma UpdateConfigstate_unregistered_witness :
  exists text,
    UpdateConfigstate Scenario.E_netspeed {| State := None |} (Scenario.start None [])
    = (Done ((errorhandler Scenario.E_netspeed (NotFoundError text)
                (world (Scenario.start None []))).1, None, []),
       {| world := (errorhandler Scenario.E_netspeed (NotFoundError text)
                      (world (Scenario.start None []))).2;
          calls := calls (Scenario.start None []) ++
            [CallFindExchangeDevice; CallErrorHandler (NotFoundError text)] |}).
Proof.
  apply (UpdateConfigstate_unregistered Scenario.E_netspeed). reflexivity.
Defined.

Lemma UpdateConfigstate_unsupported_value_witness :
  PState (Config (Scenario.node "netspeed" "active")) = "active"
  /\ calls (UpdateConfigstate Scenario.E_netspeed (Scenario.request "active")
              (Scenario.registered "netspeed" "active" [])).2
     = [CallFindExchangeDevice;
        CallErrorHandler
          (APIUserInputError "Supported state values are 'configuring' and 'configured'."
             "configstate.state")].
Proof.
  split; [reflexivity |].
  eapply eq_trans.
  - eapply (f_equal (fun r => calls r.2)).
    eapply (UpdateConfigstate_unsupported_value Scenario.E_netspeed
              (Scenario.request "active")
              (Scenario.registered "netspeed" "active" [])
              (Scenario.node "netspeed" "active") "active").
    + reflexivity.
    + reflexivity.
    + discriminate.
    + discriminate.
  - reflexivity.
Defined.

Lemma UpdateConfigstate_nil_state_witness :
  UpdateConfigstate Scenario.E_netspeed {| State := None |}
    (Scenario.registered "netspeed" "configuring" [])
  = (Panic NilPointerDereference,
     {| world := world (Scenario.registered "netspeed" "configuring" []);
        calls := [CallFindExchangeDevice] |}).
Proof.
  apply (UpdateConfigstate_nil_state Scenario.E_netspeed {| State := None |}
           (Scenario.registered "netspeed" "configuring" [])
           (Scenario.node "netspeed" "configuring")); reflexivity.
Defined.

Lemma UpdateConfigstate_without_pattern_witness :
  Pattern (Scenario.node "" "configuring") = ""
  /\ (UpdateConfigstate Scenario.E_netspeed (Scenario.request "configured")
        (Scenario.registered "" "configuring" [])).1
     = Done (false, Some {| State := Some "configured" |}, []).
Proof.
  split; [reflexivity |].
  eapply eq_trans.
  - eapply (f_equal fst).
    eapply (UpdateConfigstate_without_pattern Scenario.E_netspeed
              (Scenario.request "configured")
              (Scenario.registered "" "configuring" [])
              (Scenario.node "" "configuring")); reflexivity.
  - reflexivity.
Defined.

Lemma UpdateConfigstate_pattern_fetch_error_witness :
  calls (UpdateConfigstate (Failures.env Failures.exchangeDown Scenario.netspeedPattern)
           (Scenario.request "configured")
           (Scenario.registered "netspeed" "configuring" [])).2
  = [CallFindExchangeDevice;
     CallGetPatterns "IBM" "netspeed" "IBM/node1" "secret";
     CallErrorHandler
       (SystemError
          "Unable to read pattern object netspeed from exchange, error connection refused")].
Proof.
  eapply eq_trans.
  - eapply (f_equal (fun r => calls r.2)).
    eapply (UpdateConfigstate_pattern_fetch_error
              (Failures.env Failures.exchangeDown Scenario.netspeedPattern)
              (Scenario.request "configured")
              (Scenario.registered "netspeed" "configuring" [])
              (Scenario.node "netspeed" "configuring")).
    + reflexivity.
    + reflexivity.
    + reflexivity.
    + discriminate.
    + reflexivity.
  - reflexivity.
Defined.

(** ** Shape of the calls made by the loops *)

Section LoopShapes.

Context {W Service Msg : Type}.
Variable E : Env W Service Msg.

Local Abbreviation Ret := (bool * option Configstate * list Msg)%type.

Lemma resolveChoices_shape (pDevice : ExchangeDevice) (thisArch : string)
    (w : WorkloadReference) (cs : list WorkloadChoice) :
  forall (total : APISpecList) (st : St W Service),
  exists resolutions report,
    calls (resolveChoices E pDevice thisArch w cs total st).2
    = calls st ++ resolutions ++ report
    /\ Forall isResolveWorkload resolutions
    /\ ended (resolveChoices (Msg := Msg) E pDevice thisArch w cs total st).1 report
    /\ forall p, (resolveChoices (Msg := Msg) E pDevice thisArch w cs total st).1 <> Panic p.
Proof.
  induction cs as [| c cs IH]; intros total st.
  - exists [], []. simpl. rewrite app_nil_r. repeat split; [constructor | discriminate].
  - simpl. rewrite bind_call.
    destruct (resolveWorkload E _ _ _ _ _ _ (world st)) as [[sub [e |]] w1];
      cbn [fst snd].
    + rewrite bind_fault_return. cbn [fst snd calls].
      eexists [_], [_]. rewrite <- app_assoc. repeat split.
      * repeat constructor.
      * eauto.
      * discriminate.
    + destruct (ReplaceHigherSharedSingleton E total sub) as [total1 sub1].
      destruct (IH (MergeWith E total1 sub1)
                  {| world := w1;
                     calls := calls st ++
                       [CallResolveWorkload (WorkloadURL w) (WorkloadOrg w) (Version c)
                          thisArch (GetId E pDevice) (Token pDevice)] |})
        as (rs & h & Hcalls & Hrs & Hend & Hpanic).
      exists (CallResolveWorkload (WorkloadURL w) (WorkloadOrg w) (Version c)
                thisArch (GetId E pDevice) (Token pDevice) :: rs), h.
      rewrite Hcalls. cbn [calls]. rewrite <- !app_assoc.
      repeat split; [constructor; [exact I | assumption] | assumption | assumption].
Qed.

Lemma resolveWorkloads_shape (pDevice : ExchangeDevice) (thisArch : string)
    (ws : list WorkloadReference) :
  forall (total : APISpecList) (st : St W Service),
  exists resolutions report,
    calls (resolveWorkloads E pDevice thisArch ws total st).2
    = calls st ++ resolutions ++ report
    /\ Forall isResolveWorkload resolutions
    /\ ended (resolveWorkloads (Msg := Msg) E pDevice thisArch ws total st).1 report
    /\ forall p, (resolveWorkloads (Msg := Msg) E pDevice thisArch ws total st).1 <> Panic p.
Proof.
  induction ws as [| w ws IH]; intros total st.
  - exists [], []. simpl. rewrite app_nil_r. repeat split; [constructor | discriminate].
  - destruct (decide (WorkloadArch w = thisArch)) as [Hw | Hw].
    + rewrite resolveWorkloads_cons_match by assumption.
      destruct (resolveChoices_shape pDevice thisArch w (WorkloadVersions w) total st)
        as (rs1 & h1 & Hcalls1 & Hrs1 & Hend1 & Hpanic1).
      unfold bind.
      destruct (resolveChoices E pDevice thisArch w (WorkloadVersions w) total st)
        as [[[total1 | x] | p] st1]; cbn [fst snd andThen] in *.
      * unfold ended in Hend1. subst h1. rewrite app_nil_r in Hcalls1.
        destruct (IH total1 st1) as (rs2 & h2 & Hcalls2 & Hrs2 & Hend2 & Hpanic2).
        exists (rs1 ++ rs2), h2. rewrite Hcalls2, Hcalls1, <- !app_assoc.
        repeat split; [apply Forall_app; split; assumption | assumption | assumption].
      * exists rs1, h1. repeat split; [assumption | assumption | assumption | discriminate].
      * exfalso. apply (Hpanic1 p). reflexivity.
    + rewrite resolveWorkloads_cons_skip by assumption. apply IH.
Qed.

(** One turn of the loop that ends with any other error. *)
Lemma createServices_fatal (err : option error) (apiSpec : APISpecification)
    (specs : APISpecList) (cse : option error) (msgs : list Msg)
    (st : St W Service) r cse1 w1 :
  CreateService E (serviceFor E apiSpec) cse (world st) = ((r, cse1), w1) ->
  classify (r, cse1) = Fatal ->
  let fault := SystemError ("unexpected error returned from service create ("
                            ++ fmt_T cse1 ++ ") " ++ fmt_v E cse1)%string in
  createServices E err (apiSpec :: specs) cse msgs st
  = (Done (Return ((errorhandler E fault w1).1, None, [])),
     {| world := (errorhandler E fault w1).2;
        calls := calls st ++
          [CallCreateService (serviceFor E apiSpec); CallErrorHandler fault] |}).
Proof.
  intros Hcall Hclass fault.
  simpl. rewrite bind_call. fold (serviceFor E apiSpec). rewrite Hcall.
  cbn [fst snd]. destruct r as [[[|] newService] m]; simpl in Hclass; [| discriminate].
  subst fault.
  destruct cse1 as [[] |]; try discriminate;
    rewrite bind_fault_return; cbn [world calls]; rewrite <- app_assoc; reflexivity.
Qed.

Lemma createServices_shape (err : option error) (specs : APISpecList) :
  forall (cse : option error) (msgs : list Msg) (st : St W Service),
  exists n report,
    n <= length specs
    /\ calls (createServices E err specs cse msgs st).2
       = calls st ++ createCalls E (take n specs) ++ report
    /\ ended (createServices E err specs cse msgs st).1 report
    /\ (forall ms, (createServices E err specs cse msgs st).1 = Done (Continue ms) ->
        n = length specs).
Proof.
  induction specs as [| apiSpec specs IH]; intros cse msgs st.
  - exists 0, []. simpl. rewrite app_nil_r. repeat split; lia.
  - simpl createServices. rewrite bind_call. fold (serviceFor E apiSpec).
    destruct (CreateService E (serviceFor E apiSpec) cse (world st))
      as [[[[errHandled newService] msg] cse1] w1]. cbn [fst snd].
    set (st1 := {| world := w1;
                   calls := calls st ++ [CallCreateService (serviceFor E apiSpec)] |}).
    assert (Hgo : forall msgs1,
      exists n report,
        n <= length (apiSpec :: specs)
        /\ calls (createServices E err specs cse1 msgs1 st1).2
           = calls st ++ createCalls E (take n (apiSpec :: specs)) ++ report
        /\ ended (createServices E err specs cse1 msgs1 st1).1 report
        /\ (forall ms, (createServices E err specs cse1 msgs1 st1).1 = Done (Continue ms) ->
            n = length (apiSpec :: specs))).
    { intros msgs1.
      destruct (IH cse1 msgs1 st1) as (n & h & Hn & Hcalls & Hend & Hall).
      exists (S n), h. rewrite Hcalls. subst st1. cbn [calls take createCalls map length].
      rewrite <- !app_assoc. repeat split; [lia | assumption |].
      intros ms Hms. rewrite (Hall ms Hms). reflexivity. }
    assert (Hstop : forall e,
      exists n report,
        n <= length (apiSpec :: specs)
        /\ calls (bind (fault (Msg := Msg) E e)
                    (fun r => ret (Return (A := list Msg) r)) st1).2
           = calls st ++ createCalls E (take n (apiSpec :: specs)) ++ report
        /\ ended (bind (fault (Msg := Msg) E e)
                    (fun r => ret (Return (A := list Msg) r)) st1).1 report
        /\ (forall ms, (bind (fault (Msg := Msg) E e)
                          (fun r => ret (Return (A := list Msg) r)) st1).1
                       = Done (Continue ms) ->
            n = length (apiSpec :: specs))).
    { intros e. rewrite bind_fault_return. exists 1, [CallErrorHandler e].
      subst st1. cbn [fst snd calls take createCalls map length]. rewrite take_0.
      rewrite <- !app_assoc. repeat split; [lia | eauto | discriminate]. }
    destruct errHandled; [| apply Hgo].
    destruct cse1 as [[ | | | detail | | | ] |]; try apply Hstop.
    + (* needs manual configuration *)
      destruct err as [[ | | | held | | | ] |];
        try (exists 1, []; subst st1;
             cbn [fst snd calls take createCalls map length];
             rewrite take_0, app_nil_r; repeat split; [lia | discriminate]).
      cbn [assert_MSMissingVariableConfigError]. rewrite bind_ret. apply Hstop.
    + apply Hgo.
Qed.

End LoopShapes.

Section WorkflowShape.

Context {W Service Msg : Type}.
Variable E : Env W Service Msg.

Lemma createCalls_are_creations (specs : APISpecList) :
  Forall isCreateService (createCalls E specs).
Proof.
  induction specs as [| a specs IH]; simpl; constructor; [exact I | assumption].
Qed.

Lemma atMostOne_nil {S'} (P : Call S' -> Prop) : atMostOne P [].
Proof. left. reflexivity. Qed.

Lemma atMostOne_one {S'} (P : Call S' -> Prop) (c : Call S') : P c -> atMostOne P [c].
Proof. intros H. right. eauto. Qed.

Ltac close_shape :=
  split_and!;
  try first [ exact I | reflexivity | assumption | apply atMostOne_nil
            | (apply atMostOne_one; exact I) | apply List.Forall_nil
            | apply createCalls_are_creations | discriminate
            | (left; reflexivity) | (eexists; reflexivity) ].

Lemma autoconfig_shape (pDevice : ExchangeDevice) (msgs : list Msg) (st : St W Service) :
  exists fetch resolutions creations report,
    calls (autoconfig E pDevice msgs st).2
    = calls st ++ fetch ++ resolutions ++ creations ++ report
    /\ atMostOne isGetPatterns fetch
    /\ Forall isResolveWorkload resolutions
    /\ Forall isCreateService creations
    /\ ended (autoconfig E pDevice msgs st).1 report.
Proof.
  unfold autoconfig. rewrite bind_call.
  set (get := CallGetPatterns (Org pDevice) (Pattern pDevice) (GetId E pDevice)
                (Token pDevice)).
  assert (Hstop : forall e st1,
    calls st1 = calls st ++ [get] ->
    exists fetch resolutions creations report,
      calls (bind (fault (Msg := Msg) E e)
               (fun r => ret (Return (A := list Msg) r)) st1).2
      = calls st ++ fetch ++ resolutions ++ creations ++ report
      /\ atMostOne isGetPatterns fetch
      /\ Forall isResolveWorkload resolutions
      /\ Forall isCreateService creations
      /\ ended (bind (fault (Msg := Msg) E e)
                  (fun r => ret (Return (A := list Msg) r)) st1).1 report).
  { intros e st1 Hst1. rewrite bind_fault_return. cbn [fst snd calls].
    exists [get], [], [], [CallErrorHandler e]. rewrite Hst1, <- !app_assoc.
    unfold ended. close_shape. }
  destruct (getPatterns E _ _ _ _ (world st)) as [[pattern [e |]] w1]; cbn [fst snd].
  { apply Hstop. reflexivity. }
  destruct (negb (size pattern =? 1)%nat); [apply Hstop; reflexivity |].
  destruct (pattern !! _) as [patternDef |]; [| apply Hstop; reflexivity].
  set (st1 := {| world := w1; calls := calls st ++ [get] |}).
  destruct (resolveWorkloads_shape E pDevice (ArchString E) (Workloads patternDef) [] st1)
    as (rs & h & Hcalls & Hrs & Hend & Hpanic).
  destruct (resolveWorkloads E pDevice (ArchString E) (Workloads patternDef) [] st1)
    as [[[specs | x] | p] st2] eqn:Hres; cbn [fst snd] in *;
    [rewrite !(bind_done _ _ _ _ _ Hres); cbv beta iota .. |].
  - unfold ended in Hend. subst h. rewrite app_nil_r in Hcalls.
    destruct (createServices_shape E None specs None msgs st2)
      as (n & h & _ & Hcalls2 & Hend2 & _).
    exists [get], rs, (createCalls E (take n specs)), h.
    rewrite Hcalls2, Hcalls. subst st1. cbn [calls]. rewrite <- !app_assoc.
    split; [reflexivity |]. split; [apply atMostOne_one; exact I |].
    split; [assumption |]. split; [apply createCalls_are_creations | assumption].
  - exists [get], rs, [], h. cbn [calls ret fst snd]. rewrite Hcalls. subst st1.
    cbn [calls]. rewrite <- !app_assoc.
    split; [reflexivity |]. split; [apply atMostOne_one; exact I |].
    split; [assumption |]. split; [constructor | assumption].
  - exfalso. apply (Hpanic p). reflexivity.
Qed.

Lemma persistState_shape (pDevice : ExchangeDevice) (to : string) (msgs : list Msg)
    (st : St W Service) :
  exists report,
    calls (persistState E pDevice to msgs st).2
    = calls st ++ [CallSetConfigstate (Id pDevice) to] ++ report
    /\ ((report = []
         /\ exists view, (persistState E pDevice to msgs st).1
                         = Done (false, Some view, msgs))
        \/ (exists e b, report = [CallErrorHandler e]
                        /\ (persistState E pDevice to msgs st).1 = Done (b, None, []))).
Proof.
  unfold persistState. rewrite bind_call.
  destruct (SetConfigstate E pDevice (Id pDevice) to (world st)) as [[d' [e |]] w1];
    cbn [fst snd].
  - rewrite fault_run. cbn [fst snd calls]. eexists [_]. rewrite <- app_assoc.
    split; [reflexivity |]. right. eauto.
  - exists []. cbn [ret fst snd calls]. split; [reflexivity |]. left. eauto.
Qed.

Lemma shaped_fault (cfg : Configstate) (st : St W Service) (e : error) (b : bool) :
  shaped E cfg st (Done (b, None, [])) [CallFindExchangeDevice; CallErrorHandler e].
Proof.
  exists [], [], [], [], [CallErrorHandler e]. close_shape.
  right. close_shape.
Qed.

Lemma shaped_persist (cfg : Configstate) (st st2 : St W Service)
    (pDevice : ExchangeDevice) (msgs : list Msg)
    (fetch rs cs : list (Call Service)) :
  FindExchangeDevice E (world st) = (Some pDevice, None) ->
  PState (Config pDevice) = CONFIGSTATE_CONFIGURING ->
  State cfg = Some CONFIGSTATE_CONFIGURED ->
  calls st2 = calls st ++ CallFindExchangeDevice :: fetch ++ rs ++ cs ->
  atMostOne isGetPatterns fetch -> Forall isResolveWorkload rs ->
  Forall isCreateService cs ->
  exists trace,
    calls (persistState E pDevice CONFIGSTATE_CONFIGURED msgs st2).2 = calls st ++ trace
    /\ shaped E cfg st (persistState E pDevice CONFIGSTATE_CONFIGURED msgs st2).1 trace.
Proof.
  intros Hfind Hcur Hcfg Hst2 Hfetch Hrs Hcs.
  destruct (persistState_shape pDevice CONFIGSTATE_CONFIGURED msgs st2)
    as (h & Hcalls & Hres).
  eexists. split.
  { rewrite Hcalls, Hst2, <- !app_assoc. reflexivity. }
  exists fetch, rs, cs, [CallSetConfigstate (Id pDevice) CONFIGSTATE_CONFIGURED], h.
  split; [simpl; rewrite <- !app_assoc; reflexivity |].
  split; [assumption |]. split; [assumption |]. split; [assumption |].
  split; [right; exists pDevice; auto |].
  destruct Hres as [[-> [view ->]] | (e & b & -> & ->)].
  - split; [apply atMostOne_nil |]. left. close_shape.
  - split; [apply atMostOne_one; exact I |]. right. close_shape.
Qed.

(** The calls and the result of one request, together. *)
Lemma UpdateConfigstate_shape (cfg : Configstate) (st : St W Service) :
  exists trace,
    calls (UpdateConfigstate (Msg := Msg) E cfg st).2 = calls st ++ trace
    /\ shaped E cfg st (UpdateConfigstate (Msg := Msg) E cfg st).1 trace.
Proof.
  destruct (FindExchangeDevice E (world st)) as [pDev err] eqn:Hfind.
  destruct err as [e |].
  { unfold UpdateConfigstate, query. rewrite bind_call. cbn [fst snd world].
    rewrite Hfind, fault_run. cbn [fst snd world calls]. rewrite <- app_assoc.
    eexists. split; [reflexivity | apply shaped_fault]. }
  destruct pDev as [pDevice |].
  2:{ unfold UpdateConfigstate, query. rewrite bind_call. cbn [fst snd world].
      rewrite Hfind, fault_run. cbn [fst snd world calls]. rewrite <- app_assoc.
      eexists. split; [reflexivity | apply shaped_fault]. }
  destruct (State cfg) as [to |] eqn:Hcfg.
  2:{ unfold UpdateConfigstate, query. rewrite bind_call. cbn [fst snd world].
      rewrite Hfind, Hcfg. cbn [deref bind panic fst snd calls].
      eexists. split; [reflexivity |].
      exists [], [], [], [], []. close_shape. }
  rewrite (UpdateConfigstate_registered E cfg st pDevice to Hfind Hcfg). cbv zeta.
  set (st1 := {| world := world st; calls := calls st ++ [CallFindExchangeDevice] |}).
  destruct (negb (to =? CONFIGSTATE_CONFIGURING)%string
            && negb (to =? CONFIGSTATE_CONFIGURED)%string).
  { rewrite fault_run. subst st1. cbn [fst snd calls world]. rewrite <- app_assoc.
    eexists. split; [reflexivity | apply shaped_fault]. }
  destruct (NoOpStateChange (PState (Config pDevice)) to).
  { subst st1. cbn [fst snd calls]. eexists. split; [reflexivity |].
    exists [], [], [], [], []. close_shape. left. close_shape. }
  destruct (ValidStateChange (PState (Config pDevice)) to) eqn:Hvalid; cbn [negb].
  2:{ rewrite fault_run. subst st1. cbn [fst snd calls world]. rewrite <- app_assoc.
      eexists. split; [reflexivity | apply shaped_fault]. }
  apply ValidStateChange_true in Hvalid as [Hfrom Hto]. subst to.
  destruct (negb (Pattern pDevice =? "")%string).
  - destruct (autoconfig_shape pDevice [] st1)
      as (fetch & rs & cs & h & Hcalls & Hf & Hrs & Hcs & Hend).
    destruct (autoconfig E pDevice [] st1) as [[[msgs | [[handled view] ms]] | p] st2]
      eqn:Hres; cbn [fst snd] in *; unfold ended in Hend;
      [rewrite !(bind_done _ _ _ _ _ Hres); cbv beta iota ..
      | rewrite !(bind_panic _ _ _ _ _ Hres)].
    + subst h. rewrite app_nil_r in Hcalls.
      apply (shaped_persist cfg st st2 pDevice msgs fetch rs cs); try assumption.
      rewrite Hcalls. subst st1. cbn [calls]. rewrite <- !app_assoc. reflexivity.
    + destruct Hend as (-> & -> & e & ->).
      eexists. split.
      { cbn [calls ret fst snd]. rewrite Hcalls. subst st1. cbn [calls].
        rewrite <- !app_assoc. reflexivity. }
      exists fetch, rs, cs, [], [CallErrorHandler e]. cbn [ret fst snd].
      close_shape. right. close_shape.
    + subst h. eexists. split.
      { cbn [calls ret fst snd]. rewrite Hcalls. subst st1. cbn [calls].
        rewrite <- !app_assoc. reflexivity. }
      exists fetch, rs, cs, [], []. cbn [fst snd]. close_shape.
  - rewrite bind_ret.
    apply (shaped_persist cfg st st1 pDevice [] [] [] []); try assumption;
      try (apply atMostOne_nil); try (apply List.Forall_nil).
    subst st1. cbn [calls]. rewrite !app_nil_r. reflexivity.
Qed.

End WorkflowShape.

(** ** What one request calls, and what it returns *)

Section TraceProperties.

Context {W Service Msg : Type}.
Variable E : Env W Service Msg.

Lemma atMostOne_Forall (P Q : Call Service -> Prop) (l : list (Call Service)) :
  (forall c, P c -> Q c) -> atMostOne P l -> Forall Q l.
Proof.
  intros HPQ [-> | (c & -> & Hc)]; [constructor |].
  constructor; [auto | constructor].
Qed.

Lemma Forall_last (P : Call Service -> Prop) (l l' : list (Call Service)) :
  Forall P l' -> l' <> [] -> exists c, last (l ++ l') = Some c /\ P c.
Proof.
  intros HP Hne. destruct l' as [| x l'] using rev_ind; [contradiction |].
  apply Forall_app in HP as [_ HP]. apply Forall_cons in HP as [HP _].
  exists x. rewrite app_assoc, last_snoc. auto.
Qed.

(** X7: the calls of one request come in phases: the read of the device
    record first, then at most one pattern fetch, then workload
    resolutions, then service creations, then at most one state update,
    then at most one call of the error handler, which is therefore always
    the last call. *)
Theorem UpdateConfigstate_calls_in_phases (cfg : Configstate) (st : St W Service) :
  exists trace,
    calls (UpdateConfigstate (Msg := Msg) E cfg st).2 = calls st ++ trace
    /\ phased trace.
Proof.
  destruct (UpdateConfigstate_shape E cfg st)
    as (trace & Hcalls & fetch & rs & cs & update & report & -> & Hf & Hrs & Hcs
        & Hupdate & Hreport & _).
  eexists. split; [exact Hcalls |].
  exists fetch, rs, cs, update, report. split_and!; try assumption; [reflexivity |].
  destruct Hupdate as [-> | (d & _ & _ & _ & ->)];
    [apply atMostOne_nil | apply atMostOne_one; exact I].
Qed.

(** X8: the only state the store is ever asked to set is ["configured"],
    and only for the device that was read, when that device is in state
    ["configuring"] and the request asks for ["configured"]. *)
Theorem UpdateConfigstate_persists_only_configured (cfg : Configstate)
    (st : St W Service) :
  exists trace,
    calls (UpdateConfigstate (Msg := Msg) E cfg st).2 = calls st ++ trace
    /\ forall id state,
         CallSetConfigstate id state ∈ trace ->
         state = CONFIGSTATE_CONFIGURED
         /\ State cfg = Some CONFIGSTATE_CONFIGURED
         /\ exists pDevice,
              FindExchangeDevice E (world st) = (Some pDevice, None)
              /\ id = Id pDevice
              /\ PState (Config pDevice) = CONFIGSTATE_CONFIGURING.
Proof.
  destruct (UpdateConfigstate_shape E cfg st)
    as (trace & Hcalls & fetch & rs & cs & update & report & -> & Hf & Hrs & Hcs
        & Hupdate & Hreport & _).
  eexists. split; [exact Hcalls |].
  intros id state Hin.
  assert (Hother : forall (P : Call Service -> Prop) l,
            (forall c, P c -> c <> CallSetConfigstate id state) ->
            Forall P l -> CallSetConfigstate id state ∈ l -> False).
  { intros P l HP Hall Hl. rewrite Forall_forall in Hall.
    apply (HP _ (Hall _ Hl)). reflexivity. }
  apply elem_of_cons in Hin as [Hin | Hin]; [discriminate |].
  apply elem_of_app in Hin as [Hin | Hin].
  { exfalso. apply (Hother isGetPatterns fetch); try assumption.
    - intros [] Hc; try contradiction; discriminate.
    - apply (atMostOne_Forall isGetPatterns); auto. }
  apply elem_of_app in Hin as [Hin | Hin].
  { exfalso. apply (Hother isResolveWorkload rs); try assumption.
    intros [] Hc; try contradiction; discriminate. }
  apply elem_of_app in Hin as [Hin | Hin].
  { exfalso. apply (Hother isCreateService cs); try assumption.
    intros [] Hc; try contradiction; discriminate. }
  apply elem_of_app in Hin as [Hin | Hin].
  - destruct Hupdate as [-> | (d & Hfind & Hcur & Hcfg & ->)].
    + apply elem_of_nil in Hin. contradiction.
    + apply list_elem_of_singleton in Hin. injection Hin as -> ->.
      split_and!; [reflexivity | assumption |]. exists d. auto.
  - exfalso. apply (Hother isErrorHandler report); try assumption.
    + intros [] Hc; try contradiction; discriminate.
    + apply (atMostOne_Forall isErrorHandler); auto.
Qed.

(** X9: a request that completes returns either a view or a fault, never
    both and never neither: the view is nil exactly when the last call
    made is the error handler's, in which case no notification is
    returned; and when a view is returned the request is reported as not
    handled. *)
Theorem UpdateConfigstate_view_or_fault (cfg : Configstate) (st st' : St W Service)
    (handled : bool) (view : option Configstate) (msgs : list Msg) :
  UpdateConfigstate E cfg st = (Done (handled, view, msgs), st') ->
  (view = None <-> exists e, last (calls st') = Some (CallErrorHandler e))
  /\ (view = None -> msgs = [])
  /\ (view <> None -> handled = false).
Proof.
  intros Hrun.
  destruct (UpdateConfigstate_shape E cfg st)
    as (trace & Hcalls & fetch & rs & cs & update & report & -> & Hf & Hrs & Hcs
        & Hupdate & Hreport & Hres).
  rewrite Hrun in Hcalls, Hres. cbn [fst snd] in Hcalls, Hres.
  assert (Hquiet : Forall (fun c => ~ isErrorHandler c)
                     (CallFindExchangeDevice :: fetch ++ rs ++ cs ++ update)).
  { constructor; [exact (fun H => H) |].
    repeat (apply Forall_app; split).
    - apply (atMostOne_Forall isGetPatterns); [| assumption].
      intros [] Hc; try contradiction; exact (fun H => H).
    - eapply Forall_impl; [exact Hrs |].
      intros [] Hc; try contradiction; exact (fun H => H).
    - eapply Forall_impl; [exact Hcs |].
      intros [] Hc; try contradiction; exact (fun H => H).
    - destruct Hupdate as [-> | (d & _ & _ & _ & ->)]; repeat constructor.
      exact (fun H => H). }
  destruct Hres as [(-> & -> & Hview) | (-> & -> & Hreport')].
  - split_and!; [| contradiction | reflexivity].
    split; [contradiction |]. intros [e He]. exfalso.
    rewrite Hcalls in He. rewrite !app_nil_r in He.
    destruct (Forall_last _ (calls st) _ Hquiet ltac:(discriminate)) as (c & Hc & Hnot).
    rewrite He in Hc. injection Hc as <-. apply Hnot. exact I.
  - split_and!; [| reflexivity | contradiction].
    split; [| reflexivity]. intros _.
    destruct Hreport as [-> | (c & -> & Hc)]; [contradiction |].
    destruct c; try contradiction. exists e.
    rewrite Hcalls.
    change (CallFindExchangeDevice :: fetch ++ rs ++ cs ++ update ++ [CallErrorHandler e])
      with ([CallFindExchangeDevice] ++ fetch ++ rs ++ cs ++ update ++ [CallErrorHandler e]).
    rewrite !app_assoc. apply last_snoc.
Qed.

(** X10: a request that panics has neither asked the store to change the
    state nor reported a fault. *)
Theorem UpdateConfigstate_panic_changes_no_state (cfg : Configstate)
    (st st' : St W Service) (p : PanicKind) :
  UpdateConfigstate (Msg := Msg) E cfg st = (Panic p, st') ->
  exists trace,
    calls st' = calls st ++ trace
    /\ Forall (fun c => ~ isSetConfigstate c /\ ~ isErrorHandler c) trace.
Proof.
  intros Hrun.
  destruct (UpdateConfigstate_shape E cfg st)
    as (trace & Hcalls & fetch & rs & cs & update & report & -> & Hf & Hrs & Hcs
        & Hupdate & Hreport & Hres).
  rewrite Hrun in Hcalls, Hres. cbn [fst snd] in Hcalls, Hres.
  destruct Hres as [-> ->]. eexists. split; [exact Hcalls |].
  rewrite !app_nil_r.
  constructor; [split; exact (fun H => H) |].
  repeat (apply Forall_app; split).
  - apply (atMostOne_Forall isGetPatterns); [| assumption].
    intros [] Hc; try contradiction; split; exact (fun H => H).
  - eapply Forall_impl; [exact Hrs |].
    intros [] Hc; try contradiction; split; exact (fun H => H).
  - eapply Forall_impl; [exact Hcs |].
    intros [] Hc; try contradiction; split; exact (fun H => H).
Qed.

(** X11: the service-creation loop asks for the services of the resolved
    list in list order, one per entry, without skipping any: its calls
    are those of a prefix of the list, followed by at most one call of the
    error handler; when the loop runs to its end the prefix is the whole
    list and nothing was reported. *)
Theorem createServices_calls_in_order (err : option error) (specs : APISpecList)
    (cse : option error) (msgs : list Msg) (st : St W Service) :
  exists n report,
    n <= length specs
    /\ calls (createServices E err specs cse msgs st).2
       = calls st ++ createCalls E (take n specs) ++ report
    /\ atMostOne isErrorHandler report
    /\ (forall ms, (createServices E err specs cse msgs st).1 = Done (Continue ms) ->
        n = length specs /\ report = []).
Proof.
  destruct (createServices_shape E err specs cse msgs st)
    as (n & report & Hn & Hcalls & Hend & Hall).
  exists n, report. split_and!; try assumption.
  - destruct (createServices E err specs cse msgs st).1 as [[ms | [[b v] ms]] | p];
      unfold ended in Hend.
    + subst report. apply atMostOne_nil.
    + destruct Hend as (_ & _ & e & ->). apply atMostOne_one. exact I.
    + subst report. apply atMostOne_nil.
  - intros ms Hms. split; [exact (Hall ms Hms) |].
    rewrite Hms in Hend. exact Hend.
Qed.

End TraceProperties.

Lemma UpdateConfigstate_view_or_fault_witness :
  exists e,
    last (calls (UpdateConfigstate Scenario.E_netspeed (Scenario.request "configuring")
                   (Scenario.registered "netspeed" "configured" [])).2)
    = Some (CallErrorHandler e).
Proof.
  apply (proj1 (proj1 (UpdateConfigstate_view_or_fault Scenario.E_netspeed
                         (Scenario.request "configuring")
                         (Scenario.registered "netspeed" "configured" [])
                         (UpdateConfigstate Scenario.E_netspeed
                            (Scenario.request "configuring")
                            (Scenario.registered "netspeed" "configured" [])).2
                         true None [] eq_refl))).
  reflexivity.
Defined.

Lemma UpdateConfigstate_panic_changes_no_state_witness :
  exists trace,
    calls (UpdateConfigstate Scenario.E_location (Scenario.request "configured")
             (Scenario.registered "location" "configuring" [])).2
    = calls (Scenario.registered "location" "configuring" []) ++ trace
    /\ Forall (fun c => ~ isSetConfigstate c /\ ~ isErrorHandler c) trace.
Proof.
  apply (UpdateConfigstate_panic_changes_no_state Scenario.E_location
           (Scenario.request "configured")
           (Scenario.registered "location" "configuring" [])
           (UpdateConfigstate Scenario.E_location (Scenario.request "configured")
              (Scenario.registered "location" "configuring" [])).2
           (InterfaceConversion "<nil>" "*api.MSMissingVariableConfigError")).
  reflexivity.
Defined.

(** ** Faults after the pattern was fetched *)

Section LateFaults.

Context {W Service Msg : Type}.
Variable E : Env W Service Msg.

(** X12: when the creation of a service fails with an error that is
    neither a missing-variable nor a duplicate error (or with no error
    recorded at all), the dependencies before it being created or already
    present, the request is answered with a system error that shows the
    error's type and text; the later dependencies are not asked for and
    the state is not persisted. *)
Theorem UpdateConfigstate_create_fails (cfg : Configstate)
    (st : St W Service) (pDevice : ExchangeDevice)
    (patterns : gmap string PatternDefinition) (patternDef : PatternDefinition)
    (w1 : W) (pre : APISpecList) (apiSpec : APISpecification) (rest : APISpecList)
    (st2 : St W Service) (created : list Msg) (cse1 : option error) (w3 : W)
    r (cse2 : option error) (w4 : W) :
  FindExchangeDevice E (world st) = (Some pDevice, None) ->
  State cfg = Some CONFIGSTATE_CONFIGURED ->
  PState (Config pDevice) = CONFIGSTATE_CONFIGURING ->
  Pattern pDevice <> "" ->
  getPatterns E (Org pDevice) (Pattern pDevice) (GetId E pDevice) (Token pDevice)
    (world st) = ((patterns, None), w1) ->
  size patterns = 1 ->
  patterns !! (Org pDevice ++ "/" ++ Pattern pDevice)%string = Some patternDef ->
  resolveWorkloads E pDevice (ArchString E) (Workloads patternDef) []
    {| world := w1;
       calls := calls st ++
         [CallFindExchangeDevice;
          CallGetPatterns (Org pDevice) (Pattern pDevice) (GetId E pDevice)
            (Token pDevice)] |}
  = (Done (Continue (pre ++ apiSpec :: rest)), st2) ->
  Recoverable E pre None (world st2) created cse1 w3 ->
  CreateService E (serviceFor E apiSpec) cse1 w3 = ((r, cse2), w4) ->
  classify (r, cse2) = Fatal ->
  let fault := SystemError ("unexpected error returned from service create ("
                            ++ fmt_T cse2 ++ ") " ++ fmt_v E cse2)%string in
  UpdateConfigstate (Msg := Msg) E cfg st
  = (Done ((errorhandler E fault w4).1, None, []),
     {| world := (errorhandler E fault w4).2;
        calls := calls st2 ++ createCalls E pre
                 ++ [CallCreateService (serviceFor E apiSpec); CallErrorHandler fault] |}).
Proof.
  intros Hfind Hcfg Hcur Hpat Hget Hsize Hkey Hresolve Hrun Hcall Hclass fault.
  rewrite (UpdateConfigstate_reaches_createServices E cfg st pDevice patterns
             patternDef w1 _ st2) by eassumption.
  destruct st2 as [w2 trace]. cbn [world calls] in *.
  pose proof (createServices_fatal E None apiSpec rest cse1 ([] ++ created)
                {| world := w3; calls := trace ++ createCalls E pre |}
                r cse2 w4 Hcall Hclass) as Hstep.
  cbv zeta in Hstep.
  rewrite <- (createServices_recoverable_prefix E None pre None w2 created cse1 w3 Hrun)
    in Hstep.
  rewrite (bind_done _ _ _ _ _ Hstep). cbn [calls ret].
  rewrite <- app_assoc. reflexivity.
Qed.

(** X13: when every dependency was created or already present but the
    store fails to persist the new state, the request is answered with a
    system error carrying the store's error text and returns no
    notification, although the services were created. *)
Theorem UpdateConfigstate_persist_fails (cfg : Configstate)
    (st : St W Service) (pDevice : ExchangeDevice)
    (patterns : gmap string PatternDefinition) (patternDef : PatternDefinition)
    (w1 : W) (specs : APISpecList) (st2 : St W Service)
    (created : list Msg) (cse' : option error) (w3 : W)
    (updatedDev : ExchangeDevice) (e : error) (w4 : W) :
  FindExchangeDevice E (world st) = (Some pDevice, None) ->
  State cfg = Some CONFIGSTATE_CONFIGURED ->
  PState (Config pDevice) = CONFIGSTATE_CONFIGURING ->
  Pattern pDevice <> "" ->
  getPatterns E (Org pDevice) (Pattern pDevice) (GetId E pDevice) (Token pDevice)
    (world st) = ((patterns, None), w1) ->
  size patterns = 1 ->
  patterns !! (Org pDevice ++ "/" ++ Pattern pDevice)%string = Some patternDef ->
  resolveWorkloads E pDevice (ArchString E) (Workloads patternDef) []
    {| world := w1;
       calls := calls st ++
         [CallFindExchangeDevice;
          CallGetPatterns (Org pDevice) (Pattern pDevice) (GetId E pDevice)
            (Token pDevice)] |}
  = (Done (Continue specs), st2) ->
  Recoverable E specs None (world st2) created cse' w3 ->
  SetConfigstate E pDevice (Id pDevice) CONFIGSTATE_CONFIGURED w3
  = ((updatedDev, Some e), w4) ->
  let fault := SystemError ("error persisting new config state: " ++ Error E e)%string in
  UpdateConfigstate (Msg := Msg) E cfg st
  = (Done ((errorhandler E fault w4).1, None, []),
     {| world := (errorhandler E fault w4).2;
        calls := calls st2 ++ createCalls E specs
                 ++ [CallSetConfigstate (Id pDevice) CONFIGSTATE_CONFIGURED;
                     CallErrorHandler fault] |}).
Proof.
  intros Hfind Hcfg Hcur Hpat Hget Hsize Hkey Hresolve Hrun Hset fault.
  rewrite (UpdateConfigstate_reaches_createServices E cfg st pDevice patterns
             patternDef w1 specs st2) by assumption.
  destruct st2 as [w2 trace]. cbn [world calls] in *.
  pose proof (createServices_recoverable_prefix E None specs None w2 created cse' w3
                Hrun [] [] trace) as Hloop.
  rewrite app_nil_r in Hloop. simpl in Hloop.
  rewrite (bind_done _ _ _ _ _ Hloop).
  unfold persistState. rewrite bind_call. cbn [world calls]. rewrite Hset.
  cbn [fst snd]. rewrite fault_run. cbn [world calls].
  rewrite <- !app_assoc. reflexivity.
Qed.

(** X14: when pattern resolution ends with a fault, the request returns
    that fault: it is a reported fault without view or notification, the
    calls after the pattern fetch are workload resolutions followed by the
    error handler, and no service is created and no state persisted. *)
Theorem UpdateConfigstate_resolution_fails (cfg : Configstate)
    (st : St W Service) (pDevice : ExchangeDevice)
    (patterns : gmap string PatternDefinition) (patternDef : PatternDefinition)
    (w1 : W) (r : bool * option Configstate * list Msg) (st2 : St W Service) :
  FindExchangeDevice E (world st) = (Some pDevice, None) ->
  State cfg = Some CONFIGSTATE_CONFIGURED ->
  PState (Config pDevice) = CONFIGSTATE_CONFIGURING ->
  Pattern pDevice <> "" ->
  getPatterns E (Org pDevice) (Pattern pDevice) (GetId E pDevice) (Token pDevice)
    (world st) = ((patterns, None), w1) ->
  size patterns = 1 ->
  patterns !! (Org pDevice ++ "/" ++ Pattern pDevice)%string = Some patternDef ->
  resolveWorkloads E pDevice (ArchString E) (Workloads patternDef) []
    {| world := w1;
       calls := calls st ++
         [CallFindExchangeDevice;
          CallGetPatterns (Org pDevice) (Pattern pDevice) (GetId E pDevice)
            (Token pDevice)] |}
  = (Done (Return r), st2) ->
  UpdateConfigstate E cfg st = (Done r, st2)
  /\ exists handled resolutions e,
       r = (handled, None, [])
       /\ Forall isResolveWorkload resolutions
       /\ calls st2
          = calls st ++
            [CallFindExchangeDevice;
             CallGetPatterns (Org pDevice) (Pattern pDevice) (GetId E pDevice)
               (Token pDevice)]
            ++ resolutions ++ [CallErrorHandler e].
Proof.
  intros Hfind Hcfg Hcur Hpat Hget Hsize Hkey Hresolve. split.
  - rewrite (UpdateConfigstate_registered E cfg st pDevice _ Hfind Hcfg).
    cbv zeta. rewrite Hcur. simpl.
    destruct (String.eqb_spec (Pattern pDevice) "") as [Heq | _]; [contradiction |].
    simpl negb. cbv iota.
    unfold autoconfig.
    unfold bind at 1. rewrite bind_call. cbn [world calls]. rewrite Hget. cbn [fst snd].
    rewrite Hsize. cbn [Nat.eqb negb]. rewrite Hkey.
    rewrite <- app_assoc. simpl app.
    rewrite (bind_done _ _ _ _ _ Hresolve). reflexivity.
  - destruct (resolveWorkloads_shape (Msg := Msg) E pDevice (ArchString E)
                (Workloads patternDef) []
                {| world := w1;
                   calls := calls st ++
                     [CallFindExchangeDevice;
                      CallGetPatterns (Org pDevice) (Pattern pDevice) (GetId E pDevice)
                        (Token pDevice)] |})
      as (rs & h & Hcalls & Hrs & Hend & _).
    rewrite Hresolve in Hcalls, Hend. cbn [fst snd calls] in Hcalls, Hend.
    destruct r as [[handled view] msgs]. destruct Hend as (-> & -> & e & ->).
    exists handled, rs, e. split_and!; [reflexivity | assumption |].
    rewrite Hcalls, <- !app_assoc. reflexivity.
Qed.

End LateFaults.

Lemma UpdateConfigstate_create_fails_witness :
  classify (CreateService (Failures.env Failures.diskFull Scenario.netspeedPattern)
              (serviceFor (Failures.env Failures.diskFull Scenario.netspeedPattern)
                 Scenario.Y)
              None (world (Scenario.registered "netspeed" "configuring" []))).1
  = Fatal
  /\ calls (UpdateConfigstate (Failures.env Failures.diskFull Scenario.netspeedPattern)
              (Scenario.request "configured")
              (Scenario.registered "netspeed" "configuring" [])).2
     = [CallFindExchangeDevice;
        CallGetPatterns "IBM" "netspeed" "IBM/node1" "secret";
        CallResolveWorkload "https://bluehorizon.network/workloads/netspeed"
          "IBM" "2.5.0" "amd64" "IBM/node1" "secret";
        CallCreateService
          ("https://bluehorizon.network/microservices/network", "IBM",
           "bluehorizon.network-microservices-network_IBM_1.0.0", "1.0.0");
        CallCreateService
          ("https://bluehorizon.network/microservices/gps", "IBM",
           "bluehorizon.network-microservices-gps_IBM_2.0.3", "2.0.3");
        CallErrorHandler
          (SystemError
             "unexpected error returned from service create (*errors.errorString) disk full")].
Proof.
  split; [reflexivity |].
  eapply eq_trans.
  - eapply (f_equal (fun x => calls x.2)).
    eapply (UpdateConfigstate_create_fails
              (Failures.env Failures.diskFull Scenario.netspeedPattern)
              (Scenario.request "configured")
              (Scenario.registered "netspeed" "configuring" [])
              (Scenario.node "netspeed" "configuring")
              Scenario.netspeedPattern
              {| Workloads := [Scenario.netspeed_arm; Scenario.netspeed] |}
              _ [Scenario.X] Scenario.Y []).
    + reflexivity.
    + reflexivity.
    + reflexivity.
    + discriminate.
    + reflexivity.
    + reflexivity.
    + reflexivity.
    + reflexivity.
    + eapply Recoverable_created; [reflexivity | reflexivity |].
      apply Recoverable_nil.
    + reflexivity.
    + reflexivity.
  - reflexivity.
Defined.

Lemma UpdateConfigstate_persist_fails_witness :
  (UpdateConfigstate (Failures.env Failures.storeReadOnly Scenario.netspeedPattern)
     (Scenario.request "configured")
     (Scenario.registered "netspeed" "configuring" [])).1
  = Done (true, None, [])
  /\ Scenario.configured
       (world (UpdateConfigstate (Failures.env Failures.storeReadOnly Scenario.netspeedPattern)
                 (Scenario.request "configured")
                 (Scenario.registered "netspeed" "configuring" [])).2)
     = ["bluehorizon.network-microservices-network_IBM_1.0.0";
        "bluehorizon.network-microservices-gps_IBM_2.0.3"].
Proof.
  split; [| reflexivity].
  eapply eq_trans.
  - eapply (f_equal fst).
    eapply (UpdateConfigstate_persist_fails
              (Failures.env Failures.storeReadOnly Scenario.netspeedPattern)
              (Scenario.request "configured")
              (Scenario.registered "netspeed" "configuring" [])
              (Scenario.node "netspeed" "configuring")
              Scenario.netspeedPattern
              {| Workloads := [Scenario.netspeed_arm; Scenario.netspeed] |}).
    + reflexivity.
    + reflexivity.
    + reflexivity.
    + discriminate.
    + reflexivity.
    + reflexivity.
    + reflexivity.
    + reflexivity.
    + eapply Recoverable_created; [reflexivity | reflexivity |].
      eapply Recoverable_created; [reflexivity | reflexivity |].
      apply Recoverable_nil.
    + reflexivity.
  - reflexivity.
Defined.

Lemma UpdateConfigstate_resolution_fails_witness :
  (UpdateConfigstate (Scenario.env Failures.brokenPattern) (Scenario.request "configured")
     (Scenario.registered "broken" "configuring" [])).1
  = Done (true, None, []).
Proof.
  eapply eq_trans.
  - eapply (f_equal fst).
    eapply (fun H1 H2 H3 H4 H5 H6 H7 H8 =>
              proj1 (UpdateConfigstate_resolution_fails
                       (Scenario.env Failures.brokenPattern)
                       (Scenario.request "configured")
                       (Scenario.registered "broken" "configuring" [])
                       (Scenario.node "broken" "configuring")
                       Failures.brokenPattern
                       {| Workloads := [Scenario.netspeed; Failures.unknownWorkload] |}
                       (world (Scenario.registered "broken" "configuring" []))
                       (true, None, [])
                       (UpdateConfigstate (Scenario.env Failures.brokenPattern)
                          (Scenario.request "configured")
                          (Scenario.registered "broken" "configuring" [])).2
                       H1 H2 H3 H4 H5 H6 H7 H8)).
    + reflexivity.
    + reflexivity.
    + reflexivity.
    + discriminate.
    + reflexivity.
    + reflexivity.
    + reflexivity.
    + reflexivity.
  - reflexivity.
Defined.

(** ** Patterns with nothing to resolve *)

Section NothingToResolve.

Context {W Service Msg : Type}.
Variable E : Env W Service Msg.
Variable pDevice : ExchangeDevice.
Variable thisArch : string.

Lemma resolveWorkloads_cons_no_version (w : WorkloadReference)
    (ws : list WorkloadReference) (total : APISpecList) (st : St W Service) :
  WorkloadVersions w = [] ->
  resolveWorkloads (Msg := Msg) E pDevice thisArch (w :: ws) total st
  = resolveWorkloads E pDevice thisArch ws total st.
Proof.
  intros Hnone. simpl. rewrite Hnone.
  destruct (negb (WorkloadArch w =? thisArch)%string); reflexivity.
Qed.

Lemma resolveWorkloads_nothing (ws : list WorkloadReference) (total : APISpecList)
    (st : St W Service) :
  Forall (fun w => WorkloadArch w <> thisArch \/ WorkloadVersions w = []) ws ->
  resolveWorkloads (Msg := Msg) E pDevice thisArch ws total st
  = (Done (Continue total), st).
Proof.
  induction 1 as [| w ws [Harch | Hnone] _ IH]; [reflexivity | |].
  - rewrite resolveWorkloads_cons_skip by assumption. exact IH.
  - rewrite resolveWorkloads_cons_no_version by assumption. exact IH.
Qed.

(** X15: a workload that lists no version choice adds nothing, even when
    its architecture is the node's: wherever it stands in the pattern,
    resolution runs exactly as for the pattern without it (same result,
    same world, same calls). *)
Theorem resolveWorkloads_skips_no_version (before after : list WorkloadReference)
    (w : WorkloadReference) (total : APISpecList) (st : St W Service) :
  WorkloadVersions w = [] ->
  resolveWorkloads (Msg := Msg) E pDevice thisArch (before ++ w :: after) total st
  = resolveWorkloads E pDevice thisArch (before ++ after) total st.
Proof.
  intros Hnone. revert total st.
  induction before as [| b before IH]; intros total st.
  - simpl app. apply resolveWorkloads_cons_no_version. assumption.
  - rewrite <- !app_comm_cons.
    destruct (decide (WorkloadArch b = thisArch)) as [Hb | Hb].
    + rewrite !resolveWorkloads_cons_match by assumption.
      unfold bind.
      destruct (resolveChoices E pDevice thisArch b (WorkloadVersions b) total st)
        as [[[total1 | x] | p] st1]; try reflexivity.
      simpl. apply IH.
    + rewrite !resolveWorkloads_cons_skip by assumption. apply IH.
Qed.

End NothingToResolve.

Section EmptyResolution.

Context {W Service Msg : Type}.
Variable E : Env W Service Msg.

(** X16: when none of the pattern's workloads is for this node's
    architecture with at least one version (in particular when the
    pattern has no workload), a valid request still succeeds: after the
    pattern fetch the only call is the state update, no workload is
    resolved, no service is created, and no notification is returned. *)
Theorem UpdateConfigstate_nothing_to_resolve (cfg : Configstate) (st : St W Service)
    (pDevice : ExchangeDevice) (patterns : gmap string PatternDefinition)
    (patternDef : PatternDefinition) (w1 : W) (updatedDev : ExchangeDevice) (w2 : W) :
  FindExchangeDevice E (world st) = (Some pDevice, None) ->
  State cfg = Some CONFIGSTATE_CONFIGURED ->
  PState (Config pDevice) = CONFIGSTATE_CONFIGURING ->
  Pattern pDevice <> "" ->
  getPatterns E (Org pDevice) (Pattern pDevice) (GetId E pDevice) (Token pDevice)
    (world st) = ((patterns, None), w1) ->
  size patterns = 1 ->
  patterns !! (Org pDevice ++ "/" ++ Pattern pDevice)%string = Some patternDef ->
  Forall (fun w => WorkloadArch w <> ArchString E \/ WorkloadVersions w = [])
    (Workloads patternDef) ->
  SetConfigstate E pDevice (Id pDevice) CONFIGSTATE_CONFIGURED w1
  = ((updatedDev, None), w2) ->
  UpdateConfigstate (Msg := Msg) E cfg st
  = (Done (false, Some {| State := Some (PState (Config updatedDev)) |}, []),
     {| world := w2;
        calls := calls st ++
          [CallFindExchangeDevice;
           CallGetPatterns (Org pDevice) (Pattern pDevice) (GetId E pDevice)
             (Token pDevice);
           CallSetConfigstate (Id pDevice) CONFIGSTATE_CONFIGURED] |}).
Proof.
  intros Hfind Hcfg Hcur Hpat Hget Hsize Hkey Hnone Hset.
  rewrite (UpdateConfigstate_reaches_createServices E cfg st pDevice patterns
             patternDef w1 [] _ Hfind Hcfg Hcur Hpat Hget Hsize Hkey
             (resolveWorkloads_nothing E pDevice (ArchString E) _ [] _ Hnone)).
  cbn [createServices]. rewrite bind_ret.
  unfold persistState. rewrite bind_call. cbn [world calls].
  rewrite Hset. cbn [fst snd]. rewrite <- app_assoc. reflexivity.
Qed.

End EmptyResolution.

Lemma resolveWorkloads_skips_no_version_witness :
  WorkloadVersions Failures.noVersion = []
  /\ resolveWorkloads Scenario.E_netspeed (Scenario.node "netspeed" "configuring")
       "amd64" ([Scenario.netspeed] ++ Failures.noVersion :: []) []
       (Scenario.registered "netspeed" "configuring" [])
     = resolveWorkloads Scenario.E_netspeed (Scenario.node "netspeed" "configuring")
         "amd64" ([Scenario.netspeed] ++ []) []
         (Scenario.registered "netspeed" "configuring" []).
Proof.
  split; [reflexivity |].
  apply (resolveWorkloads_skips_no_version Scenario.E_netspeed). reflexivity.
Defined.

Lemma UpdateConfigstate_nothing_to_resolve_witness :
  Forall (fun w => WorkloadArch w <> "amd64" \/ WorkloadVersions w = [])
    [Scenario.netspeed_arm]
  /\ UpdateConfigstate (Scenario.env Failures.armPattern) (Scenario.request "configured")
       (Scenario.registered "arm" "configuring" [])
     = (Done (false, Some {| State := Some "configured" |}, []),
        {| world :=
             {| Scenario.device := Some (Scenario.node "arm" "configured");
                Scenario.configured := [];
                Scenario.response := [] |};
           calls :=
             [CallFindExchangeDevice;
              CallGetPatterns "IBM" "arm" "IBM/node1" "secret";
              CallSetConfigstate "node1" "configured"] |}).
Proof.
  split; [repeat constructor; discriminate |].
  eapply eq_trans.
  - eapply (UpdateConfigstate_nothing_to_resolve (Scenario.env Failures.armPattern)
              (Scenario.request "configured")
              (Scenario.registered "arm" "configuring" [])
              (Scenario.node "arm" "configuring")
              Failures.armPattern {| Workloads := [Scenario.netspeed_arm] |}
              (world (Scenario.registered "arm" "configuring" []))).
    + reflexivity.
    + reflexivity.
    + reflexivity.
    + discriminate.
    + reflexivity.
    + reflexivity.
    + reflexivity.
    + repeat constructor. discriminate.
    + reflexivity.
  - reflexivity.
Defined.

(** ** More on service names *)

Lemma Count_append (a b : string) (c : ascii) :
  GoStrings.Count (a ++ b)%string c = GoStrings.Count a c + GoStrings.Count b c.
Proof.
  induction a as [| x a IH]; simpl; [reflexivity |]. rewrite IH. lia.
Qed.

Lemma Count_Replace (s : string) (old new : ascii) :
  old <> new -> GoStrings.Count (GoStrings.Replace s old new) old = 0.
Proof.
  intros Hne. induction s as [| x s IH]; simpl; [reflexivity |].
  rewrite IH. destruct (Ascii.eqb_spec x old) as [-> | Hx].
  - destruct (Ascii.eqb_spec new old); [congruence | reflexivity].
  - destruct (Ascii.eqb_spec x old); [contradiction | reflexivity].
Qed.

Lemma Replace_append (a b : string) (old new : ascii) :
  GoStrings.Replace (a ++ b)%string old new
  = (GoStrings.Replace a old new ++ GoStrings.Replace b old new)%string.
Proof.
  induction a as [| x a IH]; simpl; [reflexivity |]. rewrite IH. reflexivity.
Qed.

Lemma TrimSuffix_snoc (s : string) (c : ascii) :
  GoStrings.TrimSuffix (s ++ String c "")%string c = s.
Proof.
  induction s as [| x s IH]; simpl.
  - rewrite Ascii.eqb_refl. reflexivity.
  - destruct s as [| y s]; simpl in *; rewrite IH; reflexivity.
Qed.

Lemma TrimSuffix_no_suffix (s : string) (c : ascii) :
  (forall r, s <> (r ++ String c "")%string) -> GoStrings.TrimSuffix s c = s.
Proof.
  induction s as [| x s IH]; intros Hend; [reflexivity |].
  destruct s as [| y s].
  - simpl. destruct (Ascii.eqb_spec x c) as [-> | _]; [| reflexivity].
    exfalso. apply (Hend ""%string). reflexivity.
  - change (GoStrings.TrimSuffix (String x (String y s)) c)
      with (String x (GoStrings.TrimSuffix (String y s) c)).
    rewrite IH; [reflexivity |].
    intros r Hr. apply (Hend (String x r)). simpl. rewrite Hr. reflexivity.
Qed.

Lemma TrimSuffix_append (a b : string) (c : ascii) :
  b <> ""%string ->
  GoStrings.TrimSuffix (a ++ b)%string c = (a ++ GoStrings.TrimSuffix b c)%string.
Proof.
  intros Hb. induction a as [| x a IH]; [reflexivity |].
  change (String x a ++ b)%string with (String x (a ++ b)%string).
  change (String x a ++ GoStrings.TrimSuffix b c)%string
    with (String x (a ++ GoStrings.TrimSuffix b c)%string).
  rewrite <- IH.
  destruct (a ++ b)%string as [| y t] eqn:Hab; [| reflexivity].
  destruct a; [contradiction | discriminate].
Qed.

Lemma append_inv_head (p a b : string) : (p ++ a)%string = (p ++ b)%string -> a = b.
Proof.
  induction p as [| x p IH]; simpl; [auto |]. intros [= H]. auto.
Qed.

(** X17: no slash of the reference survives in the name: the name has
    exactly as many slashes as the organization and the version have
    together. *)
Theorem makeServiceName_slashes (msURL msOrg msVersion : string) :
  GoStrings.Count (makeServiceName msURL msOrg msVersion) slash
  = GoStrings.Count msOrg slash + GoStrings.Count msVersion slash.
Proof.
  unfold makeServiceName, Sprintf_v_v_v. cbv zeta.
  rewrite !Count_append.
  destruct (bool_decide (3 <= length (GoStrings.SplitN msURL slash 3))).
  - rewrite Count_Replace by discriminate. reflexivity.
  - reflexivity.
Qed.

(** X18: one trailing slash of the reference does not matter: a
    reference with at least two slashes that does not end with a slash
    and the same reference followed by a slash get the same name. *)
Theorem makeServiceName_trailing_slash (first second rest msOrg msVersion : string) :
  GoStrings.Count first slash = 0 ->
  GoStrings.Count second slash = 0 ->
  (forall r, rest <> (r ++ "/")%string) ->
  makeServiceName (first ++ "/" ++ second ++ "/" ++ rest ++ "/") msOrg msVersion
  = makeServiceName (first ++ "/" ++ second ++ "/" ++ rest) msOrg msVersion.
Proof.
  intros H1 H2 Hend. unfold makeServiceName.
  rewrite (SplitN_three_pieces first second (rest ++ "/") H1 H2).
  rewrite (SplitN_three_pieces first second rest H1 H2).
  cbn [length bool_decide decide_rel]. simpl lookup_total.
  change (rest ++ "/")%string with (rest ++ String slash "")%string.
  rewrite TrimSuffix_snoc, (TrimSuffix_no_suffix rest slash Hend). reflexivity.
Qed.

(** X19: names can collide: two different references that differ only by
    a slash against a hyphen inside the part after the second slash get
    the same name. *)
Theorem makeServiceName_collision (first second a b msOrg msVersion : string) :
  GoStrings.Count first slash = 0 ->
  GoStrings.Count second slash = 0 ->
  b <> ""%string ->
  (first ++ "/" ++ second ++ "/" ++ a ++ "/" ++ b)%string
  <> (first ++ "/" ++ second ++ "/" ++ a ++ "-" ++ b)%string
  /\ makeServiceName (first ++ "/" ++ second ++ "/" ++ a ++ "/" ++ b) msOrg msVersion
     = makeServiceName (first ++ "/" ++ second ++ "/" ++ a ++ "-" ++ b) msOrg msVersion.
Proof.
  intros H1 H2 Hb. split.
  - intros Heq.
    do 5 apply append_inv_head in Heq.
    change (String slash b = String hyphen b) in Heq. discriminate.
  - unfold makeServiceName.
    rewrite (SplitN_three_pieces first second (a ++ "/" ++ b) H1 H2).
    rewrite (SplitN_three_pieces first second (a ++ "-" ++ b) H1 H2).
    cbn [length bool_decide decide_rel]. simpl lookup_total.
    change ("/" ++ b)%string with (String slash b).
    change ("-" ++ b)%string with (String hyphen b).
    rewrite (TrimSuffix_append a (String slash b) slash) by discriminate.
    rewrite (TrimSuffix_append a (String hyphen b) slash) by discriminate.
    destruct b as [| y b]; [contradiction |].
    change (GoStrings.TrimSuffix (String slash (String y b)) slash)
      with (String slash (GoStrings.TrimSuffix (String y b) slash)).
    change (GoStrings.TrimSuffix (String hyphen (String y b)) slash)
      with (String hyphen (GoStrings.TrimSuffix (String y b) slash)).
    rewrite !Replace_append. reflexivity.
Qed.

Lemma makeServiceName_trailing_slash_witness :
  makeServiceName "https://bluehorizon.network/microservices/gps/" "IBM" "2.0.3"
  = makeServiceName "https://bluehorizon.network/microservices/gps" "IBM" "2.0.3".
Proof.
  apply (makeServiceName_trailing_slash "https:" ""
           "bluehorizon.network/microservices/gps" "IBM" "2.0.3").
  - reflexivity.
  - reflexivity.
  - intros r Hr.
    assert (Hlast : GoStrings.TrimSuffix "bluehorizon.network/microservices/gps" slash
                    = r).
    { rewrite Hr. apply TrimSuffix_snoc. }
    vm_compute in Hlast. subst r. discriminate.
Defined.

Lemma makeServiceName_collision_witness :
  "http://mycompany.com/dm/cpu" <> "http://mycompany.com/dm-cpu"
  /\ makeServiceName "http://mycompany.com/dm/cpu" "myorg" "1.0.1"
     = makeServiceName "http://mycompany.com/dm-cpu" "myorg" "1.0.1".
Proof.
  apply (makeServiceName_collision "http:" "" "mycompany.com/dm" "cpu" "myorg" "1.0.1").
  - reflexivity.
  - reflexivity.
  - discriminate.
Defined.

(** ** More on the state validator and the read path *)

(** X20: a valid change is never a no-op and never valid in the reverse
    direction, and there is no valid change out of ["configured"]. *)
Theorem ValidStateChange_one_way (from to : string) :
  ValidStateChange from to = true ->
  NoOpStateChange from to = false
  /\ ValidStateChange to from = false
  /\ forall next, ValidStateChange to next = false.
Proof.
  intros Hvalid. apply ValidStateChange_true in Hvalid as [-> ->].
  split_and!; [reflexivity | reflexivity |].
  intros next. unfold ValidStateChange. reflexivity.
Qed.

Lemma ValidStateChange_one_way_witness :
  NoOpStateChange "configuring" "configured" = false
  /\ ValidStateChange "configured" "configuring" = false
  /\ forall next, ValidStateChange "configured" next = false.
Proof.
  apply (ValidStateChange_one_way "configuring" "configured"). reflexivity.
Defined.

(** X21: [FindConfigstateForOutput] returns an error exactly when the
    read of the device record fails; the error then wraps the store's
    error text and no view is returned, whatever device value came with
    the error. *)
Theorem FindConfigstateForOutput_error {W Service Msg} (E : Env W Service Msg) (db : W) :
  ((FindConfigstateForOutput E db).2 = None <-> (FindExchangeDevice E db).2 = None)
  /\ forall pDevice e,
       FindExchangeDevice E db = (pDevice, Some e) ->
       FindConfigstateForOutput E db
       = (None,
          Some (errorString ("unable to read horizondevice object, error "
                             ++ Error E e)%string)).
Proof.
  unfold FindConfigstateForOutput.
  destruct (FindExchangeDevice E db) as [[d |] [e |]]; cbn [fst snd];
    (split; [split; (reflexivity || discriminate) |]); intros pDevice e'; intros [= <-];
    try subst; reflexivity.
Qed.

Lemma FindConfigstateForOutput_error_witness :
  FindConfigstateForOutput (Failures.env Failures.storeDown Scenario.netspeedPattern)
    (world (Scenario.registered "netspeed" "configuring" []))
  = (None, Some (errorString "unable to read horizondevice object, error database not open")).
Proof.
  apply (proj2 (FindConfigstateForOutput_error
                  (Failures.env Failures.storeDown Scenario.netspeedPattern)
                  (world (Scenario.registered "netspeed" "configuring" [])))
           None (errorString "database not open")).
  reflexivity.
Defined.
